(** * BCCE 2024 afternoon session: the notebook's code cells, embedded

    The notebook [BCCE_ML_afternoon_session.ipynb] builds molecular
    descriptors from SMILES strings with RDKit, scales them, and sweeps a
    grid of random-forest hyperparameters with scikit-learn.

    Conventions of the embedding:
    - Python floats are idealised as real numbers ([R]); Python ints used
      as hyperparameters are [Z]; lengths and counts are [nat].
    - A Python call that can raise returns [result A] = [exn + A].
    - The notebook's global namespace is an explicit record that every
      statement of a cell threads through; an exception leaves the
      namespace as it was when it was raised, as in a notebook kernel.
    - RDKit and scikit-learn are not part of the repository: they enter
      as parameters (sections and classes), or as definitions marked
      "Modelled from the spec". *)

From Stdlib Require Import String.
From Stdlib Require Import List ZArith Reals Lra Lia Bool Arith.
Import ListNotations.

Set Implicit Arguments.

(* ================================================================== *)
(** * Part I: definitions *)
(* ================================================================== *)

(** Exception classes that the cells can surface. *)
Inductive exn : Type :=
| ZeroDivisionError
| AttributeError
| ArgumentError
| ValueError
| InvalidParameterError
| NotFittedError.

Definition result (A : Type) : Type := (exn + A)%type.

(** [Series.apply(f)]: calls [f] on the elements in order; the first
    exception ends the call. *)
Fixpoint Series_apply {A B : Type} (f : A -> result B) (col : list A)
  : result (list B) :=
  match col with
  | [] => inr []
  | x :: rest =>
      match f x with
      | inl e => inl e
      | inr y =>
          match Series_apply f rest with
          | inl e => inl e
          | inr ys => inr (y :: ys)
          end
      end
  end.

(** Python's [/] on two ints: true division, raising on a zero divisor. *)
Definition truediv (a b : nat) : result R :=
  if Nat.eqb b 0 then inl ZeroDivisionError else inr (INR a / INR b)%R.

(** ** Cells 21-31: molecules and descriptors *)

Module Rdkit.

(** What the notebook observes of an RDKit molecule: its atoms and,
    for each, whether it is aromatic.  [GetAromaticAtoms] selects
    among the atoms that [GetNumAtoms] counts. *)
Record Atom : Type := mkAtom { GetIsAromatic : bool }.
Record Mol : Type := mkMol { GetAtoms : list Atom }.

Definition GetAromaticAtoms (mol : Mol) : list Atom :=
  filter GetIsAromatic (GetAtoms mol).

Definition GetNumAtoms (mol : Mol) : nat := length (GetAtoms mol).

(** A cell of the [mol] column: a molecule, or [None] where
    [Chem.MolFromSmiles] could not parse the identifier. *)
Definition PyMol : Type := option Mol.

(** [def aromatic_calc(mol)] of cell 30.  Attribute access on [None]
    raises before anything is divided. *)
Definition aromatic_calc (mol : PyMol) : result R :=
  match mol with
  | None => inl AttributeError
  | Some m => truediv (length (GetAromaticAtoms m)) (GetNumAtoms m)
  end.

Section Cells.
(** RDKit's parser and the three library descriptors. *)
Variable MolFromSmiles : string -> PyMol.
Variables MolWt CalcNumRotatableBonds MolLogP : PyMol -> result R.

(** cell 21: [df['mol'] = df['smiles'].apply(Chem.MolFromSmiles)] *)
Definition cell_21 (smiles : list string) : result (list PyMol) :=
  Series_apply (fun s => inr (MolFromSmiles s)) smiles.

(** cell 31: [df['aromatic_ratio'] = df['mol'].apply(aromatic_calc)] *)
Definition cell_31 (mol : list PyMol) : result (list R) :=
  Series_apply aromatic_calc mol.

(** The descriptor columns that cells 24, 26, 28 and 31 add. *)
Record Descriptors : Type := mkDescriptors {
  mol_weight : list R;
  rot_bonds : list R;
  clogP : list R;
  aromatic_ratio : list R
}.

(** Cells 21 to 31 run in order, as "Run all" does; the first cell
    that raises stops the run. *)
Definition cells_21_31 (smiles : list string) : result Descriptors :=
  match cell_21 smiles with
  | inl e => inl e
  | inr mol =>
      match Series_apply MolWt mol with
      | inl e => inl e
      | inr w =>
          match Series_apply CalcNumRotatableBonds mol with
          | inl e => inl e
          | inr r =>
              match Series_apply MolLogP mol with
              | inl e => inl e
              | inr c =>
                  match cell_31 mol with
                  | inl e => inl e
                  | inr a => inr (mkDescriptors w r c a)
                  end
              end
          end
      end
  end.
End Cells.

(** A stand-in parser for examples: it knows methane, benzene and the
    empty identifier (which RDKit parses to a molecule without atoms)
    and rejects everything else. *)
Definition methane : Mol := mkMol [mkAtom false].
Definition benzene : Mol := mkMol (repeat (mkAtom true) 6).
Definition toluene : Mol := mkMol (mkAtom false :: repeat (mkAtom true) 6).
Definition no_atoms : Mol := mkMol [].

Definition toy_MolFromSmiles (s : string) : PyMol :=
  if String.eqb s "C" then Some methane
  else if String.eqb s "c1ccccc1" then Some benzene
  else if String.eqb s "Cc1ccccc1" then Some toluene
  else if String.eqb s EmptyString then Some no_atoms
  else None.

(** RDKit's descriptors reject [None] with a Boost [ArgumentError]. *)
Definition toy_descriptor (mol : PyMol) : result R :=
  match mol with
  | None => inl ArgumentError
  | Some m => inr (INR (GetNumAtoms m))
  end.

End Rdkit.

(** ** The notebook kernel: a namespace and exceptions *)

Module Py.
Section Monad.
Variable W : Type.

(** A statement run in namespace [W]: it ends normally with a value or
    raises, and in both cases leaves a namespace behind. *)
Definition M (A : Type) : Type := W -> result A * W.

Definition ret {A : Type} (a : A) : M A := fun w => (inr a, w).

Definition bind {A B : Type} (c : M A) (k : A -> M B) : M B :=
  fun w =>
    match c w with
    | (inl e, w') => (inl e, w')
    | (inr a, w') => k a w'
    end.

Definition get : M W := fun w => (inr w, w).

Definition modify (f : W -> W) : M unit := fun w => (inr tt, f w).

(** A call whose outcome does not touch the namespace. *)
Definition call {A : Type} (r : result A) : M A := fun w => (r, w).

(** [for x in xs: body(x)] *)
Fixpoint for_ {A : Type} (xs : list A) (body : A -> M unit) : M unit :=
  match xs with
  | [] => ret tt
  | x :: rest => bind (body x) (fun _ => for_ rest body)
  end.
End Monad.

Arguments ret {W A} a.
Arguments get {W}.
Arguments call {W A} r.
End Py.

Declare Scope py_scope.
Delimit Scope py_scope with py.
Notation "x <- c ;; k" := (Py.bind c (fun x => k))
  (at level 61, c at next level, right associativity) : py_scope.
Notation "c ;; k" := (Py.bind c (fun _ => k))
  (at level 61, right associativity) : py_scope.

(** ** scikit-learn, as the cells use it *)

(** [sklearn.ensemble.RandomForestRegressor].  The constructor only
    stores its arguments.  [fit] draws from numpy's global generator when
    no [random_state] is given, which is how cell 57 calls it, so the
    generator state goes in and comes out. *)
Class Trainer (Matrix Vector Estimator Rng : Type) : Type := {
  RandomForestRegressor : Z -> Z -> Estimator;
  fit : Estimator -> Matrix -> Vector -> Rng -> result Estimator * Rng;
  predict : Estimator -> Matrix -> result Vector
}.

(** [sklearn.metrics]: both functions take [(y_true, y_pred)]. *)
Class Scorer (Vector Score : Type) : Type := {
  mean_squared_error : Vector -> Vector -> result Score;
  r2_score : Vector -> Vector -> result Score
}.

(** Ghost record of the calls into the trainer, in call order, each with
    the grid cell it was made for and whether it returned. *)
Inductive Event : Type :=
| EvFit (tree depth : Z) (ok : bool)
| EvPredict (tree depth : Z) (ok : bool).

Definition is_model_fit (ev : Event) : bool :=
  match ev with
  | EvFit _ _ ok => ok
  | EvPredict _ _ _ => false
  end.

(** How many models have been fit according to a trace. *)
Definition models_fit (tr : list Event) : nat :=
  length (filter is_model_fit tr).

(** ** Cell 57: the hyperparameter sweep *)

Module Sweep.
Section Cell57.
Context {Matrix Vector Estimator Rng Score : Type}.
Context {T : Trainer Matrix Vector Estimator Rng}.
Context {S : Scorer Vector Score}.

(** One row of [results_df]. *)
Record SweepResult : Type := mkSweepResult {
  Number_of_trees : Z;
  Max_depth : Z;
  MSE : Score;
  R2 : Score
}.

Definition DataFrame : Type := list SweepResult.

(** [pd.DataFrame({...})] on four columns given as lists: pandas
    raises [ValueError] unless all have the same length. *)
Definition pd_DataFrame (c1 c2 : list Z) (c3 c4 : list Score)
  : result DataFrame :=
  if (length c1 =? length c2)%nat && (length c2 =? length c3)%nat
     && (length c3 =? length c4)%nat
  then inr (map (fun r => mkSweepResult (fst (fst (fst r))) (snd (fst (fst r)))
                                        (snd (fst r)) (snd r))
                (combine (combine (combine c1 c2) c3) c4))
  else inl ValueError.

(** The names of the global namespace that cell 57 reads or binds,
    numpy's global generator, and the ghost trace. *)
Record Globals : Type := mkGlobals {
  np_random : Rng;
  trace : list Event;
  tree_count : list Z;
  tree_depth : list Z;
  tuned_rf_MSE : list Score;
  tuned_rf_R2 : list Score;
  tuned_rf_model : option Estimator;
  y_pred_tuned_rf : option Vector;
  results_df : option DataFrame
}.

Definition set_np_random (g : Rng) (w : Globals) : Globals :=
  mkGlobals g (trace w) (tree_count w) (tree_depth w) (tuned_rf_MSE w)
            (tuned_rf_R2 w) (tuned_rf_model w) (y_pred_tuned_rf w) (results_df w).
Definition log (ev : Event) (w : Globals) : Globals :=
  mkGlobals (np_random w) (trace w ++ [ev]) (tree_count w) (tree_depth w)
            (tuned_rf_MSE w) (tuned_rf_R2 w) (tuned_rf_model w)
            (y_pred_tuned_rf w) (results_df w).
Definition set_tree_count (l : list Z) (w : Globals) : Globals :=
  mkGlobals (np_random w) (trace w) l (tree_depth w) (tuned_rf_MSE w)
            (tuned_rf_R2 w) (tuned_rf_model w) (y_pred_tuned_rf w) (results_df w).
Definition set_tree_depth (l : list Z) (w : Globals) : Globals :=
  mkGlobals (np_random w) (trace w) (tree_count w) l (tuned_rf_MSE w)
            (tuned_rf_R2 w) (tuned_rf_model w) (y_pred_tuned_rf w) (results_df w).
Definition set_tuned_rf_MSE (l : list Score) (w : Globals) : Globals :=
  mkGlobals (np_random w) (trace w) (tree_count w) (tree_depth w) l
            (tuned_rf_R2 w) (tuned_rf_model w) (y_pred_tuned_rf w) (results_df w).
Definition set_tuned_rf_R2 (l : list Score) (w : Globals) : Globals :=
  mkGlobals (np_random w) (trace w) (tree_count w) (tree_depth w)
            (tuned_rf_MSE w) l (tuned_rf_model w) (y_pred_tuned_rf w) (results_df w).
Definition set_tuned_rf_model (m : Estimator) (w : Globals) : Globals :=
  mkGlobals (np_random w) (trace w) (tree_count w) (tree_depth w)
            (tuned_rf_MSE w) (tuned_rf_R2 w) (Some m) (y_pred_tuned_rf w)
            (results_df w).
Definition set_y_pred_tuned_rf (y : Vector) (w : Globals) : Globals :=
  mkGlobals (np_random w) (trace w) (tree_count w) (tree_depth w)
            (tuned_rf_MSE w) (tuned_rf_R2 w) (tuned_rf_model w) (Some y)
            (results_df w).
Definition set_results_df (df : DataFrame) (w : Globals) : Globals :=
  mkGlobals (np_random w) (trace w) (tree_count w) (tree_depth w)
            (tuned_rf_MSE w) (tuned_rf_R2 w) (tuned_rf_model w)
            (y_pred_tuned_rf w) (Some df).

(** The train/test split that cells 40 and 43 left in the namespace;
    cell 57 only reads it. *)
Variables (x_train_scaled : Matrix) (y_train : Vector).
Variables (x_test_scaled : Matrix) (y_test : Vector).

Local Open Scope py_scope.

(** [tuned_rf_model.fit(x_train_scaled, y_train)]: the estimator is
    fitted in place and numpy's generator advances. *)
Definition call_fit (tree depth : Z) (m : Estimator) : Py.M Globals Estimator :=
  fun w =>
    let (r, g) := fit m x_train_scaled y_train (np_random w) in
    match r with
    | inl e => (inl e, log (EvFit tree depth false) (set_np_random g w))
    | inr m' =>
        (inr m', log (EvFit tree depth true)
                     (set_tuned_rf_model m' (set_np_random g w)))
    end.

(** [tuned_rf_model.predict(x_test_scaled)] *)
Definition call_predict (tree depth : Z) (m : Estimator) : Py.M Globals Vector :=
  fun w =>
    match predict m x_test_scaled with
    | inl e => (inl e, log (EvPredict tree depth false) w)
    | inr y => (inr y, log (EvPredict tree depth true) w)
    end.

(** [l.append(x)] on each of the four result lists. *)
Definition append_tree_count (x : Z) : Py.M Globals unit :=
  Py.modify (fun w => set_tree_count (tree_count w ++ [x]) w).
Definition append_tree_depth (x : Z) : Py.M Globals unit :=
  Py.modify (fun w => set_tree_depth (tree_depth w ++ [x]) w).
Definition append_tuned_rf_MSE (x : Score) : Py.M Globals unit :=
  Py.modify (fun w => set_tuned_rf_MSE (tuned_rf_MSE w ++ [x]) w).
Definition append_tuned_rf_R2 (x : Score) : Py.M Globals unit :=
  Py.modify (fun w => set_tuned_rf_R2 (tuned_rf_R2 w ++ [x]) w).

(** The body of the inner loop, statement by statement. *)
Definition body (tree depth : Z) : Py.M Globals unit :=
  let m := RandomForestRegressor tree depth in
  Py.modify (set_tuned_rf_model m) ;;
  m' <- call_fit tree depth m ;;
  y <- call_predict tree depth m' ;;
  Py.modify (set_y_pred_tuned_rf y) ;;
  append_tree_count tree ;;
  append_tree_depth depth ;;
  mse <- Py.call (mean_squared_error y_test y) ;;
  append_tuned_rf_MSE mse ;;
  r2 <- Py.call (r2_score y_test y) ;;
  append_tuned_rf_R2 r2.

(** The four empty lists bound at the top of the cell. *)
Definition init_lists : Py.M Globals unit :=
  Py.modify (set_tree_count []) ;;
  Py.modify (set_tree_depth []) ;;
  Py.modify (set_tuned_rf_MSE []) ;;
  Py.modify (set_tuned_rf_R2 []).

(** [for tree in trees: for depth in depths: ...] *)
Definition loops (trees depths : list Z) : Py.M Globals unit :=
  Py.for_ trees (fun tree => Py.for_ depths (fun depth => body tree depth)).

(** [results_df = pd.DataFrame({...})] *)
Definition make_results_df : Py.M Globals unit :=
  w <- Py.get ;;
  df <- Py.call (pd_DataFrame (tree_count w) (tree_depth w)
                              (tuned_rf_MSE w) (tuned_rf_R2 w)) ;;
  Py.modify (set_results_df df).

(** Cell 57, with the two hyperparameter lists as arguments. *)
Definition cell_57 (trees depths : list Z) : Py.M Globals unit :=
  init_lists ;;
  loops trees depths ;;
  make_results_df.

(** The loop body at one grid cell, and the loop over a list of
    cells; [loops] is this loop over the row-major grid. *)
Definition body_at (c : Z * Z) : Py.M Globals unit := body (fst c) (snd c).
Definition run_cells (cells : list (Z * Z)) : Py.M Globals unit :=
  Py.for_ cells body_at.

(** Every library call of cell [(tree, depth)] returns when the
    generator is in state [g]. *)
Definition cell_ok (tree depth : Z) (g : Rng) : Prop :=
  exists m' g' y mse r2,
    fit (RandomForestRegressor tree depth) x_train_scaled y_train g = (inr m', g') /\
    predict m' x_test_scaled = inr y /\
    mean_squared_error y_test y = inr mse /\
    r2_score y_test y = inr r2.

(** Fitting, or predicting with the fitted model, raises [e] in cell
    [(tree, depth)] when the generator is in state [g]. *)
Definition fit_or_predict_fails (tree depth : Z) (g : Rng) (e : exn) : Prop :=
  (exists g',
      fit (RandomForestRegressor tree depth) x_train_scaled y_train g = (inl e, g')) \/
  (exists m' g',
      fit (RandomForestRegressor tree depth) x_train_scaled y_train g = (inr m', g') /\
      predict m' x_test_scaled = inl e).

(** The pair of hyperparameters of a result row. *)
Definition grid_cell (r : SweepResult) : Z * Z :=
  (Number_of_trees r, Max_depth r).

(** A pair of scores that the scorer returned for one prediction
    against [y_test]. *)
Definition scored (mse r2 : Score) : Prop :=
  exists y, mean_squared_error y_test y = inr mse /\ r2_score y_test y = inr r2.

(** The namespace when exactly the cells [done] have been evaluated since
    the four lists were emptied in a namespace with trace [tr0] and
    table [df0]. *)
Definition evaluated (tr0 : list Event) (df0 : option DataFrame)
           (done : list (Z * Z)) (w : Globals) : Prop :=
  tree_count w = map fst done /\
  tree_depth w = map snd done /\
  Forall2 scored (tuned_rf_MSE w) (tuned_rf_R2 w) /\
  length (tuned_rf_MSE w) = length done /\
  models_fit (trace w) = (models_fit tr0 + length done)%nat /\
  results_df w = df0.

(** Two namespaces that agree on everything an iteration reads. *)
Definition same_inputs (w1 w2 : Globals) : Prop :=
  np_random w1 = np_random w2 /\
  tree_count w1 = tree_count w2 /\
  tree_depth w1 = tree_depth w2 /\
  tuned_rf_MSE w1 = tuned_rf_MSE w2 /\
  tuned_rf_R2 w1 = tuned_rf_R2 w2.

(** [np.random.seed(...)]: put the global generator in a given state. *)
Definition reseed (g : Rng) : Py.M Globals unit :=
  Py.modify (set_np_random g).

End Cell57.

(** The lists the notebook sweeps. *)
Definition trees : list Z := [50; 100; 300; 500; 1000]%Z.
Definition depths : list Z := [1; 3; 5; 7; 9; 11]%Z.

End Sweep.

(** ** Column statistics *)

Module Stats.
Local Open Scope R_scope.

Fixpoint sum (xs : list R) : R :=
  match xs with
  | [] => 0
  | x :: rest => x + sum rest
  end.

Definition mean (xs : list R) : R := sum xs / INR (length xs).

(** Population variance and standard deviation (numpy's default). *)
Definition var (xs : list R) : R := mean (map (fun x => Rsqr (x - mean xs)) xs).
Definition std (xs : list R) : R := sqrt (var xs).
End Stats.

(** ** The scorer *)

Module Metrics.
Import Stats.
Local Open Scope R_scope.

Definition squared_errors (y_true y_pred : list R) : list R :=
  map (fun p => Rsqr (fst p - snd p)) (combine y_true y_pred).

(** Modelled from the spec: [sklearn.metrics.mean_squared_error] is not
    in the repository.  The spec calls it the mean squared error over
    the test partition: the mean of the squared differences between
    ground truth and prediction. *)
Definition mse (y_true y_pred : list R) : R :=
  mean (squared_errors y_true y_pred).

(** Modelled from the spec: [sklearn.metrics.r2_score] is not in the
    repository.  The spec calls it the coefficient of determination
    over the test partition: one minus the residual sum of squares over
    the total sum of squares around the mean of the ground truth.  This
    is the formula alone, with Rocq's total division; it serves the
    examples.  What scikit-learn returns where the formula is undefined
    is in [SklearnMetrics]. *)
Definition r2 (y_true y_pred : list R) : R :=
  1 - sum (squared_errors y_true y_pred)
      / sum (map (fun y => Rsqr (y - mean y_true)) y_true).

(** Modelled from the spec: the Scorer interface [mse(y_true, y_pred)]
    and [r2(y_true, y_pred)] as cell 57 calls it.  A prediction that does
    not pair up with the ground truth is rejected, as scikit-learn
    does. *)
Definition checked (f : list R -> list R -> R) (y_true y_pred : list R)
  : result R :=
  if (length y_true =? length y_pred)%nat then inr (f y_true y_pred)
  else inl ValueError.

#[export] Instance RealScorer : Scorer (list R) R := {
  mean_squared_error := checked mse;
  r2_score := checked r2
}.
End Metrics.

(** ** The scorer with scikit-learn's edge cases *)

Module SklearnMetrics.
Import Stats Metrics.
Local Open Scope R_scope.

(** A float as a scorer returns it: a number, or [nan]. *)
Inductive pyfloat : Type :=
| Finite (x : R)
| NaN.

(** The residual sum of squares, and the total sum of squares around the
    mean of the ground truth. *)
Definition ss_res (y_true y_pred : list R) : R :=
  sum (squared_errors y_true y_pred).
Definition ss_tot (y_true : list R) : R :=
  sum (map (fun y => Rsqr (y - mean y_true)) y_true).

(** The scorers' input validation: as many predictions as ground truth
    values, and at least one. *)
Definition consistent (y_true y_pred : list R) : bool :=
  (length y_true =? length y_pred)%nat && negb (length y_true =? 0)%nat.

(** Modelled from the spec: [sklearn.metrics.r2_score] is not in the
    repository.  The coefficient of determination of the spec,
    [1 - ss_res / ss_tot], with what scikit-learn returns where that is
    undefined: [nan] on fewer than two rows; on a constant ground truth
    1 for a perfect prediction and 0 for any other. *)
Definition r2_value (y_true y_pred : list R) : pyfloat :=
  if (length y_true <? 2)%nat then NaN
  else if Req_EM_T (ss_tot y_true) 0
       then (if Req_EM_T (ss_res y_true y_pred) 0 then Finite 1 else Finite 0)
       else Finite (1 - ss_res y_true y_pred / ss_tot y_true).

(** Modelled from the spec: [sklearn.metrics.mean_squared_error] is not
    in the repository; the mean of the squared differences, on validated
    input. *)
Definition sklearn_mean_squared_error (y_true y_pred : list R) : result pyfloat :=
  if consistent y_true y_pred then inr (Finite (mse y_true y_pred))
  else inl ValueError.

Definition sklearn_r2_score (y_true y_pred : list R) : result pyfloat :=
  if consistent y_true y_pred then inr (r2_value y_true y_pred)
  else inl ValueError.

#[export] Instance SklearnScorer : Scorer (list R) pyfloat := {
  mean_squared_error := sklearn_mean_squared_error;
  r2_score := sklearn_r2_score
}.
End SklearnMetrics.

(** ** Cell 43: the scaler *)

Module Scaling.
Import Stats.
Local Open Scope R_scope.

(** A feature matrix, column by column.  Columns are matched by
    position: cell 40 cuts both matrices out of one frame, so they carry
    the same labels in the same order. *)
Definition Matrix : Type := list (list R).

(** The per-feature pair of the spec's ScalingParameters. *)
Record ScalingParameters : Type := mkParams { mean_ : R; scale_ : R }.

(** A [StandardScaler] object: the parameters it holds once fitted,
    and (ghost) every matrix it has been fitted on, in order. *)
Record StandardScaler : Type := mkScaler {
  params : option (list ScalingParameters);
  fitted_on : list Matrix
}.

(** [StandardScaler()] *)
Definition new_scaler : StandardScaler := mkScaler None [].

(** Modelled from the spec: [sklearn.preprocessing.StandardScaler] is
    not in the repository.  The spec has [fit] compute a per-column
    standardization, the pair (mean, standard deviation), and [apply]
    use it on any partition: every entry [x] of a column becomes
    [(x - mean) / std].  As scikit-learn does, the divisor kept for a
    column whose standard deviation is 0 is 1: such a column is shifted,
    not divided. *)
Definition column_parameters (col : list R) : ScalingParameters :=
  mkParams (mean col) (if Req_EM_T (std col) 0 then 1 else std col).

(** Modelled from the spec: [apply(ScalingParameters, AnySet)] on one
    column: every entry minus the mean, over the divisor. *)
Definition scale_column (p : ScalingParameters) (col : list R) : list R :=
  map (fun x => (x - mean_ p) / scale_ p) col.

(** Modelled from the spec: [fit(TrainSet) -> ScalingParameters]; the
    object keeps the parameters of its latest fit. *)
Definition fit (sc : StandardScaler) (X : Matrix) : StandardScaler :=
  mkScaler (Some (map column_parameters X)) (fitted_on sc ++ [X]).

(** Modelled from the spec: [apply(ScalingParameters, AnySet) -> AnySet],
    column by column.  The two rejections are scikit-learn's, the spec
    has no words for them: an unfitted scaler, and ([ValueError]) a
    matrix with another number of columns than the one fitted on. *)
Definition transform (sc : StandardScaler) (X : Matrix) : result Matrix :=
  match params sc with
  | None => inl NotFittedError
  | Some ps =>
      if (length ps =? length X)%nat
      then inr (map (fun pc => scale_column (fst pc) (snd pc)) (combine ps X))
      else inl ValueError
  end.

(** A matrix with at least one feature column and at least one row:
    what scikit-learn's input validation accepts.  [fit] and [transform]
    above do not model that validation, so what is proved of cell 43 is
    stated for such matrices wherever it matters. *)
Definition has_rows_and_columns (X : Matrix) : Prop :=
  X <> [] /\ forall col, In col X -> col <> [].

(** The names cell 43 binds. *)
Record Globals : Type := mkGlobals {
  scaler : option StandardScaler;
  x_train_scaled : option Matrix;
  x_test_scaled : option Matrix
}.

Definition unbound : Globals := mkGlobals None None None.

Local Open Scope py_scope.

(** [scaler.fit_transform(X)]: fit the object in place, then transform
    the same matrix. *)
Definition fit_transform (sc : StandardScaler) (X : Matrix)
  : Py.M Globals Matrix :=
  let sc' := fit sc X in
  Py.modify (fun w => mkGlobals (Some sc') (x_train_scaled w) (x_test_scaled w)) ;;
  Py.call (transform sc' X).

(** Cell 43, up to the two assignments (the prints follow).  The
    [None] branch stands for a [scaler] that is not bound; the first
    statement binds it, so the branch is never taken. *)
Definition cell_43 (x_train x_test : Matrix) : Py.M Globals unit :=
  Py.modify (fun w => mkGlobals (Some new_scaler) (x_train_scaled w) (x_test_scaled w)) ;;
  Xs <- fit_transform new_scaler x_train ;;
  Py.modify (fun w => mkGlobals (scaler w) (Some Xs) (x_test_scaled w)) ;;
  w <- Py.get ;;
  match scaler w with
  | None => Py.call (inl AttributeError)
  | Some sc =>
      Xt <- Py.call (transform sc x_test) ;;
      Py.modify (fun w => mkGlobals (scaler w) (x_train_scaled w) (Some Xt))
  end.
End Scaling.

(** ** A small stand-in for scikit-learn's forest, for examples

    It follows the library where the cells can observe it: [fit] checks
    the hyperparameters before anything else and rejects a value below 1
    with [InvalidParameterError]; it records the number of feature
    columns; [predict] rejects a matrix with another number of columns
    with [ValueError]; an unseeded [fit] consumes the global generator.
    Its "forest" predicts one constant, which depends on the generator
    state at [fit] time and on the hyperparameters. *)

Module Toy.
Record Estimator : Type := mkEstimator {
  n_estimators : Z;
  max_depth : Z;
  n_features_in_ : option nat;
  leaf : Z
}.

Definition n_features (X : list (list R)) : nat := length X.
Definition n_samples (X : list (list R)) : nat := length (hd [] X).

Definition toy_fit (m : Estimator) (X : list (list R)) (y : list R) (g : Z)
  : result Estimator * Z :=
  if (n_estimators m <? 1)%Z || (max_depth m <? 1)%Z
  then (inl InvalidParameterError, g)
  else (inr (mkEstimator (n_estimators m) (max_depth m) (Some (n_features X))
                         (g + max_depth m)%Z),
        (g + n_estimators m)%Z).

Definition toy_predict (m : Estimator) (X : list (list R)) : result (list R) :=
  match n_features_in_ m with
  | None => inl NotFittedError
  | Some k =>
      if (k =? n_features X)%nat then inr (repeat (IZR (leaf m)) (n_samples X))
      else inl ValueError
  end.

#[export] Instance ToyForest : Trainer (list (list R)) (list R) Estimator Z := {
  RandomForestRegressor := fun tree depth => mkEstimator tree depth None 0;
  fit := toy_fit;
  predict := toy_predict
}.

(** A split with three feature columns and two test rows. *)
Definition x_train : list (list R) := [[0; 1; 2]; [1; 0; 1]; [2; 2; 0]]%R.
Definition y_train : list R := [1; 2; 3]%R.
Definition x_test : list (list R) := [[1; 2]; [0; 1]; [2; 0]]%R.
Definition y_test : list R := [1; 3]%R.

(** A test matrix with four feature columns. *)
Definition x_test_4 : list (list R) := [[1; 2]; [0; 1]; [2; 0]; [5; 5]]%R.

(** A fresh kernel: nothing of cell 57 bound yet, generator state [g]. *)
Definition fresh (g : Z) : Sweep.Globals (Estimator := Estimator)
                                         (Vector := list R) (Rng := Z) (Score := R) :=
  Sweep.mkGlobals g [] [] [] [] [] None None None.

(** The namespace after cell 57 has emptied its lists in a fresh kernel,
    and after it has then evaluated the grid cell (50, 1). *)
Definition lists_emptied : Sweep.Globals :=
  snd (Sweep.init_lists (fresh 7)).
Definition after_50_1 : Sweep.Globals :=
  snd (Py.bind Sweep.init_lists
               (fun _ => Sweep.run_cells (T := ToyForest) (S := Metrics.RealScorer)
                                         x_train y_train x_test y_test [(50, 1)%Z])
               (fresh 7)).
End Toy.

(** ** Columns of molecules *)

Module RdkitColumns.
Import Rdkit.

(** An entry of the [mol] column on which [aromatic_calc] returns: a
    molecule, with at least one atom. *)
Definition usable (pm : PyMol) : Prop :=
  exists m, pm = Some m /\ (1 <= GetNumAtoms m)%nat.

(** Every atom of the molecule is aromatic. *)
Definition all_aromatic (m : Mol) : bool := forallb GetIsAromatic (GetAtoms m).
End RdkitColumns.

(** ** Cell 57: what the table and the trace say *)

Module SweepSpec.
Import Sweep.
Section Cell57.
Context {Matrix Vector Estimator Rng Score : Type}.
Context {T : Trainer Matrix Vector Estimator Rng}.
Context {S : Scorer Vector Score}.
Variables (x_train_scaled : Matrix) (y_train : Vector).
Variables (x_test_scaled : Matrix) (y_test : Vector).

(** The calls into the trainer that one completed iteration makes. *)
Definition cell_events (c : Z * Z) : list Event :=
  [EvFit (fst c) (snd c) true; EvPredict (fst c) (snd c) true].

(** The scores of row [r] are those of a forest built with the
    hyperparameters of [r] itself, fit on the training set, on its
    prediction for the test set. *)
Definition row_of_its_cell (r : @SweepResult Score) : Prop :=
  exists g g' m' y,
    fit (RandomForestRegressor (Number_of_trees r) (Max_depth r))
        x_train_scaled y_train g = (inr m', g') /\
    predict m' x_test_scaled = inr y /\
    mean_squared_error y_test y = inr (MSE r) /\
    r2_score y_test y = inr (R2 r).

(** The rows that the four result lists make, position by position. *)
Definition rows (w : @Globals Vector Estimator Rng Score) : list (@SweepResult Score) :=
  map (fun r => mkSweepResult (fst (fst (fst r))) (snd (fst (fst r)))
                              (snd (fst r)) (snd r))
      (combine (combine (combine (tree_count w) (tree_depth w)) (tuned_rf_MSE w))
               (tuned_rf_R2 w)).

(** The four result lists have one length and make rows that carry
    their own scores. *)
Definition aligned (w : @Globals Vector Estimator Rng Score) : Prop :=
  length (tree_count w) = length (tree_depth w) /\
  length (tree_depth w) = length (tuned_rf_MSE w) /\
  length (tuned_rf_MSE w) = length (tuned_rf_R2 w) /\
  Forall row_of_its_cell (rows w).
End Cell57.
End SweepSpec.

(** ** More stand-ins, for examples *)

Module ToyScorers.
(** Ground truth with one entry more than the test matrix of [Toy] has
    rows: a prediction for that matrix does not pair up with it. *)
Definition y_test_3 : list R := [1; 3; 5]%R.

(** A stand-in scorer whose [r2_score] raises on every input. *)
Definition R2Raises : Scorer (list R) R :=
  Build_Scorer (Metrics.checked Metrics.mse) (fun _ _ => inl ValueError).
End ToyScorers.

(** ** The statistics that cell 43 prints *)

Module Numpy.
Import Stats.


(** Every column of a matrix scaled with its own parameters: what
    [fit_transform] returns. *)
Definition scaled (X : Scaling.Matrix) : Scaling.Matrix :=
  map (fun col => Scaling.scale_column (Scaling.column_parameters col) col) X.
End Numpy.

(** ** Cells 45 and 49: the two baseline models and their table *)

(** Exceptions of the interpreter and of pandas' label lookup, beside
    those the libraries raise. *)
Inductive pyexn : Type :=
| Raised (e : exn)
| KeyError (labels : list string)
| NameError (name : string).

Module Baselines.

(** The two estimators that the cells construct without arguments:
    [LinearRegression()] and [RandomForestRegressor()]. *)
Class Defaults (Estimator : Type) : Type := {
  LinearRegression : Estimator;
  RandomForestRegressor_default : Estimator
}.

Section Cells.
Context {Matrix Vector Estimator Rng Score : Type}.
Context {T : Trainer Matrix Vector Estimator Rng}.
Context {S : Scorer Vector Score}.
Context {D : Defaults Estimator}.

(** One row of [results]: the index label and the two scores. *)
Record Row : Type := mkRow { index : string; MSE : Score; R2 : Score }.
Definition Table : Type := list Row.

(** The names that cells 45 and 49 bind, and numpy's global generator. *)
Record Globals : Type := mkGlobals {
  np_random : Rng;
  multi_feature_model : option Estimator;
  y_pred_linear_multi : option Vector;
  default_rf_model : option Estimator;
  y_pred_default_rf : option Vector;
  default_rf_model_results : option Table;
  results : option Table
}.

Definition set_np_random (g : Rng) (w : Globals) : Globals :=
  mkGlobals g (multi_feature_model w) (y_pred_linear_multi w) (default_rf_model w)
            (y_pred_default_rf w) (default_rf_model_results w) (results w).
Definition set_multi_feature_model (m : Estimator) (w : Globals) : Globals :=
  mkGlobals (np_random w) (Some m) (y_pred_linear_multi w) (default_rf_model w)
            (y_pred_default_rf w) (default_rf_model_results w) (results w).
Definition set_y_pred_linear_multi (y : Vector) (w : Globals) : Globals :=
  mkGlobals (np_random w) (multi_feature_model w) (Some y) (default_rf_model w)
            (y_pred_default_rf w) (default_rf_model_results w) (results w).
Definition set_default_rf_model (m : Estimator) (w : Globals) : Globals :=
  mkGlobals (np_random w) (multi_feature_model w) (y_pred_linear_multi w) (Some m)
            (y_pred_default_rf w) (default_rf_model_results w) (results w).
Definition set_y_pred_default_rf (y : Vector) (w : Globals) : Globals :=
  mkGlobals (np_random w) (multi_feature_model w) (y_pred_linear_multi w)
            (default_rf_model w) (Some y) (default_rf_model_results w) (results w).
Definition set_default_rf_model_results (t : Table) (w : Globals) : Globals :=
  mkGlobals (np_random w) (multi_feature_model w) (y_pred_linear_multi w)
            (default_rf_model w) (y_pred_default_rf w) (Some t) (results w).
Definition set_results (t : Table) (w : Globals) : Globals :=
  mkGlobals (np_random w) (multi_feature_model w) (y_pred_linear_multi w)
            (default_rf_model w) (y_pred_default_rf w) (default_rf_model_results w)
            (Some t).

Variables (x_train_scaled : Matrix) (y_train : Vector).
Variables (x_test_scaled : Matrix) (y_test : Vector).

(** A cell run in the namespace: it ends normally or raises, and leaves
    a namespace behind in both cases. *)
Definition Cell : Type := Globals -> (pyexn + unit) * Globals.

(** Cell 45, statement by statement: the model, [fit], [predict], then
    the one-row table from the two scores. *)
Definition cell_45 : Cell :=
  fun w =>
    let w := set_multi_feature_model LinearRegression w in
    match fit LinearRegression x_train_scaled y_train (np_random w) with
    | (inl e, g) => (inl (Raised e), set_np_random g w)
    | (inr m', g) =>
        let w := set_multi_feature_model m' (set_np_random g w) in
        match predict m' x_test_scaled with
        | inl e => (inl (Raised e), w)
        | inr y =>
            let w := set_y_pred_linear_multi y w in
            match mean_squared_error y_test y with
            | inl e => (inl (Raised e), w)
            | inr mse =>
                match r2_score y_test y with
                | inl e => (inl (Raised e), w)
                | inr r2 =>
                    (inr tt, set_results [mkRow "Multi-Linear-Regression" mse r2] w)
                end
            end
        end
    end.

(** Cell 49: the same for the default forest, then
    [results = pd.concat([results, default_rf_model_results])], which
    reads [results]. *)
Definition cell_49 : Cell :=
  fun w =>
    let w := set_default_rf_model RandomForestRegressor_default w in
    match fit RandomForestRegressor_default x_train_scaled y_train (np_random w) with
    | (inl e, g) => (inl (Raised e), set_np_random g w)
    | (inr m', g) =>
        let w := set_default_rf_model m' (set_np_random g w) in
        match predict m' x_test_scaled with
        | inl e => (inl (Raised e), w)
        | inr y =>
            let w := set_y_pred_default_rf y w in
            match mean_squared_error y_test y with
            | inl e => (inl (Raised e), w)
            | inr mse =>
                match r2_score y_test y with
                | inl e => (inl (Raised e), w)
                | inr r2 =>
                    let new_rows := [mkRow "Default_RF_Regression" mse r2] in
                    let w := set_default_rf_model_results new_rows w in
                    match results w with
                    | None => (inl (NameError "results"), w)
                    | Some t => (inr tt, set_results (t ++ new_rows) w)
                    end
                end
            end
        end
    end.

(** One cell after another, and a cell run [k] times in a row; an
    exception stops the run. *)
Definition then_ (c1 c2 : Cell) : Cell :=
  fun w =>
    match c1 w with
    | (inl e, w') => (inl e, w')
    | (inr _, w') => c2 w'
    end.

Fixpoint run_times (k : nat) (c : Cell) : Cell :=
  match k with
  | O => fun w => (inr tt, w)
  | Datatypes.S k' => then_ c (run_times k' c)
  end.

(** Every library call made for estimator [m] returns, whatever the
    state of the generator. *)
Definition estimator_ok (m : Estimator) : Prop :=
  forall g, exists m' g' y mse r2,
    fit m x_train_scaled y_train g = (inr m', g') /\
    predict m' x_test_scaled = inr y /\
    mean_squared_error y_test y = inr mse /\
    r2_score y_test y = inr r2.
End Cells.
End Baselines.

(** ** Cell 40: the feature matrix and the target *)

Module Frame.
Section Columns.
(** What a column holds does not matter to the cells modelled here. *)
Variable Col : Type.

(** A pandas DataFrame as its labelled columns, in order. *)
Definition DataFrame : Type := list (string * Col).

Definition columns (df : DataFrame) : list string := map fst df.

Definition among (labels : list string) (l : string) : bool :=
  existsb (String.eqb l) labels.

(** [df[label]]: the column, or [KeyError]. *)
Definition getitem (label : string) (df : DataFrame) : pyexn + Col :=
  match find (fun c => String.eqb label (fst c)) df with
  | Some c => inr (snd c)
  | None => inl (KeyError [label])
  end.

(** [df.drop(columns=labels)]: a new frame without the columns of these
    labels, the others in their order; [KeyError], naming the labels
    that are not found, when some are not. *)
Definition drop (labels : list string) (df : DataFrame) : pyexn + DataFrame :=
  match filter (fun l => negb (among (columns df) l)) labels with
  | [] => inr (filter (fun c => negb (among labels (fst c))) df)
  | missing => inl (KeyError missing)
  end.

(** The labels that cell 40 drops to get the feature matrix. *)
Definition not_features : list string :=
  ["logS"; "smiles"; "mol"; "Compound ID"]%string.

(** The first two statements of cell 40:
    [x = df.drop(columns=[...])] and [y = df['logS']]. *)
Definition cell_40_xy (df : DataFrame) : pyexn + (DataFrame * Col) :=
  match drop not_features df with
  | inl e => inl e
  | inr x =>
      match getitem "logS" df with
      | inl e => inl e
      | inr y => inr (x, y)
      end
  end.
End Columns.
End Frame.

Module ToyBaselines.
(** Stand-ins for the two estimators built without arguments (the
    stand-in forest has no "unbounded" depth, so both get a depth). *)
Definition ToyDefaults : Baselines.Defaults Toy.Estimator :=
  Baselines.Build_Defaults (Toy.mkEstimator 1 1 None 0) (Toy.mkEstimator 100 1 None 0).

(** A fresh kernel for cells 45 and 49: nothing bound, generator state
    [g]. *)
Definition fresh (g : Z)
  : Baselines.Globals (Vector := list R) (Estimator := Toy.Estimator)
                      (Rng := Z) (Score := R) :=
  Baselines.mkGlobals g None None None None None None.

(** A frame as cell 40 finds it (columns of the data file, then the
    columns that cells 21 to 31 add), and one on which cell 21 has not
    run; a column is represented by its number of rows. *)
Definition df_full : Frame.DataFrame nat :=
  [("Compound ID", 3); ("logS", 3); ("smiles", 3); ("mol", 3);
   ("mol_weight", 3); ("rot_bonds", 3); ("clogP", 3); ("aromatic_ratio", 3)]%string.
Definition df_raw : Frame.DataFrame nat :=
  [("Compound ID", 3); ("logS", 3); ("smiles", 3)]%string.
End ToyBaselines.

Module ToyOneRow.
(** A test partition with a single row, for the three feature columns
    of [Toy.x_train]. *)
Definition x_test_1 : list (list R) := [[1]; [0]; [2]]%R.
Definition y_test_1 : list R := [1]%R.

(** A fresh kernel for cell 57 when the scores are floats that may be
    [nan]. *)
Definition fresh (g : Z)
  : Sweep.Globals (Estimator := Toy.Estimator) (Vector := list R) (Rng := Z)
                  (Score := SklearnMetrics.pyfloat) :=
  Sweep.mkGlobals g [] [] [] [] [] None None None.
End ToyOneRow.

(* ================================================================== *)
(** * Part II: theorems *)
(* ================================================================== *)

Unset Implicit Arguments.

Module RdkitFacts.
Import Rdkit.

Lemma filter_length_le {A : Type} (p : A -> bool) (l : list A) :
  (length (filter p l) <= length l)%nat.
Proof.
  induction l as [| a l IH]; simpl; [lia |].
  destruct (p a); simpl; lia.
Qed.

Lemma aromatic_calc_returns (m : Mol) :
  (1 <= GetNumAtoms m)%nat ->
  aromatic_calc (Some m)
  = inr (INR (length (GetAromaticAtoms m)) / INR (GetNumAtoms m))%R.
Proof.
  intros Hn. unfold aromatic_calc, truediv.
  destruct (Nat.eqb_spec (GetNumAtoms m) 0) as [E | _]; [lia | reflexivity].
Qed.

(** C9.  On a molecule with at least one atom [aromatic_calc] returns
    the number of aromatic atoms divided by the number of atoms, a
    value of the closed interval [0, 1]; on a molecule without atoms
    the unguarded division raises [ZeroDivisionError]. *)
Theorem aromatic_calc_ratio (m : Mol) :
  ((1 <= GetNumAtoms m)%nat ->
     exists q : R,
       aromatic_calc (Some m) = inr q /\
       q = (INR (length (GetAromaticAtoms m)) / INR (GetNumAtoms m))%R /\
       (0 <= q <= 1)%R) /\
  (GetNumAtoms m = 0%nat -> aromatic_calc (Some m) = inl ZeroDivisionError).
Proof.
  split.
  - intros Hn. eexists; split; [apply aromatic_calc_returns; exact Hn |].
    split; [reflexivity |].
    assert (Hpos : (0 < INR (GetNumAtoms m))%R) by (apply lt_0_INR; lia).
    assert (Hle : (INR (length (GetAromaticAtoms m)) <= INR (GetNumAtoms m))%R)
      by (apply le_INR, filter_length_le).
    assert (H0 : (0 <= INR (length (GetAromaticAtoms m)))%R) by apply pos_INR.
    split.
    + apply Rmult_le_pos; [exact H0 |].
      left; apply Rinv_0_lt_compat; exact Hpos.
    + apply Rmult_le_reg_r with (r := INR (GetNumAtoms m)); [exact Hpos |].
      unfold Rdiv. rewrite Rmult_assoc, Rinv_l by lra. lra.
  - intros E. unfold aromatic_calc, truediv. rewrite E. reflexivity.
Qed.

Lemma aromatic_calc_ratio_witness :
  (exists q : R,
      aromatic_calc (Some toluene) = inr q /\
      q = (INR (length (GetAromaticAtoms toluene)) / INR (GetNumAtoms toluene))%R /\
      (0 <= q <= 1)%R) /\
  aromatic_calc (Some no_atoms) = inl ZeroDivisionError.
Proof.
  split.
  - apply (proj1 (aromatic_calc_ratio toluene)). cbv. lia.
  - apply (proj2 (aromatic_calc_ratio no_atoms)). reflexivity.
Defined.

Lemma Series_apply_total {A B : Type} (f : A -> B) (col : list A) :
  Series_apply (fun x => inr (f x)) col = inr (map f col).
Proof.
  induction col as [| x col IH]; simpl; [reflexivity | rewrite IH; reflexivity].
Qed.

(** The first element on which [f] raises ends [apply] with its
    exception. *)
Lemma Series_apply_raises {A B : Type} (f : A -> result B)
      (pre post : list A) (x : A) (e : exn) :
  (forall a, In a pre -> exists b, f a = inr b) ->
  f x = inl e ->
  Series_apply f (pre ++ x :: post) = inl e.
Proof.
  intros Hpre Hx. induction pre as [| a pre IH]; simpl.
  - rewrite Hx. reflexivity.
  - destruct (Hpre a (or_introl eq_refl)) as [b ->].
    rewrite IH; [reflexivity |]. intros a' Ha'. apply Hpre. right; exact Ha'.
Qed.

Lemma Series_apply_cannot_return {A B : Type} (f : A -> result B)
      (col : list A) (x : A) (e : exn) :
  In x col -> f x = inl e -> exists e', Series_apply f col = inl e'.
Proof.
  intros Hin Hx. induction col as [| a col IH]; simpl; [contradiction |].
  destruct (f a) as [e1 | b] eqn:Ha; [exists e1; reflexivity |].
  destruct Hin as [-> | Hin]; [congruence |].
  destruct (IH Hin) as [e' ->]. exists e'. reflexivity.
Qed.

(** C8, amended.  Cell 21 keeps every row and stores [None] where the
    identifier does not parse; nothing drops or marks such a row.  The
    [None] is handed to the descriptor functions: [aromatic_calc] raises
    [AttributeError] on it, and cells 21 to 31 cannot complete on a
    dataset that holds an identifier that does not parse. *)
Theorem parse_failures_reach_descriptors
        (MolFromSmiles : string -> PyMol)
        (MolWt CalcNumRotatableBonds MolLogP : PyMol -> result R)
        (smiles : list string) :
  cell_21 MolFromSmiles smiles = inr (map MolFromSmiles smiles) /\
  (forall pre s post,
      smiles = pre ++ s :: post ->
      MolFromSmiles s = None ->
      (forall s', In s' pre ->
                  exists m, MolFromSmiles s' = Some m /\ (1 <= GetNumAtoms m)%nat) ->
      cell_31 (map MolFromSmiles smiles) = inl AttributeError) /\
  ((exists s, In s smiles /\ MolFromSmiles s = None) ->
   exists e,
     cells_21_31 MolFromSmiles MolWt CalcNumRotatableBonds MolLogP smiles = inl e).
Proof.
  assert (H21 : cell_21 MolFromSmiles smiles = inr (map MolFromSmiles smiles))
    by apply Series_apply_total.
  split; [exact H21 | split].
  - intros pre s post -> Hs Hpre. unfold cell_31.
    rewrite map_app; simpl. apply Series_apply_raises.
    + intros a Ha. apply in_map_iff in Ha as (s' & <- & Hs').
      destruct (Hpre s' Hs') as (m & -> & Hm).
      rewrite (aromatic_calc_returns m Hm). eexists; reflexivity.
    + rewrite Hs. reflexivity.
  - intros (s & Hin & Hs). unfold cells_21_31. rewrite H21.
    destruct (Series_apply MolWt _) as [e | wt]; [exists e; reflexivity |].
    destruct (Series_apply CalcNumRotatableBonds _) as [e | rb]; [exists e; reflexivity |].
    destruct (Series_apply MolLogP _) as [e | lp]; [exists e; reflexivity |].
    destruct (Series_apply_cannot_return aromatic_calc (map MolFromSmiles smiles)
                None AttributeError) as [e He].
    + rewrite <- Hs. apply in_map. exact Hin.
    + reflexivity.
    + unfold cell_31. rewrite He. exists e; reflexivity.
Qed.

Lemma parse_failures_reach_descriptors_witness :
  cell_21 toy_MolFromSmiles ["C"; "C1CC"]%string
  = inr (map toy_MolFromSmiles ["C"; "C1CC"]%string) /\
  cell_31 (map toy_MolFromSmiles ["C"; "C1CC"]%string) = inl AttributeError /\
  exists e,
    cells_21_31 toy_MolFromSmiles toy_descriptor toy_descriptor toy_descriptor
                ["C"; "C1CC"]%string = inl e.
Proof.
  destruct (parse_failures_reach_descriptors
              toy_MolFromSmiles toy_descriptor toy_descriptor toy_descriptor
              ["C"; "C1CC"]%string) as (H21 & H31 & Hall).
  split; [exact H21 | split].
  - apply (H31 ["C"%string] "C1CC"%string []); [reflexivity | reflexivity |].
    intros s' [<- | []]. exists methane. split; [reflexivity | cbv; lia].
  - apply Hall. exists "C1CC"%string. split; [right; left; reflexivity | reflexivity].
Defined.

(** C8, as stated, fails on the code: the identifier "C1CC" (a ring
    that is never closed) does not parse; its row stays in the [mol]
    column as [None], [aromatic_calc] is called on it and raises, and so
    does the first library descriptor of the run. *)
Lemma unparsed_identifier_reaches_descriptors :
  toy_MolFromSmiles "C1CC" = None /\
  cell_21 toy_MolFromSmiles ["C"; "C1CC"]%string = inr [Some methane; None] /\
  cell_31 [Some methane; None] = inl AttributeError /\
  cells_21_31 toy_MolFromSmiles toy_descriptor toy_descriptor toy_descriptor
              ["C"; "C1CC"]%string = inl ArgumentError.
Proof.
  repeat split; cbv -[Rdiv INR]; reflexivity.
Qed.

End RdkitFacts.

(** ** Loops in the kernel monad *)

Module PyFacts.
Section Loops.
Context {W A : Type}.
Implicit Types (f : A -> Py.M W unit) (w : W).

Lemma for_app (xs ys : list A) f w :
  Py.for_ (xs ++ ys) f w
  = Py.bind (Py.for_ xs f) (fun _ => Py.for_ ys f) w.
Proof.
  revert w; induction xs as [| x xs IH]; intros w; simpl.
  - reflexivity.
  - unfold Py.bind. destruct (f x w) as [[e | u] w1]; [reflexivity |].
    rewrite IH. reflexivity.
Qed.

(** A failing iteration ends the loop with its exception and its
    namespace: nothing after it runs. *)
Lemma for_abort (pre post : list A) (x : A) f w w1 w2 (e : exn) :
  Py.for_ pre f w = (inr tt, w1) ->
  f x w1 = (inl e, w2) ->
  Py.for_ (pre ++ x :: post) f w = (inl e, w2).
Proof.
  intros Hpre Hx. rewrite for_app. unfold Py.bind. rewrite Hpre.
  simpl. unfold Py.bind. rewrite Hx. reflexivity.
Qed.

(** An invariant indexed by the elements already processed. *)
Lemma for_invariant (I : list A -> W -> Prop) f :
  (forall done x w w', I done w -> f x w = (inr tt, w') -> I (done ++ [x]) w') ->
  forall xs done w w',
    I done w -> Py.for_ xs f w = (inr tt, w') -> I (done ++ xs) w'.
Proof.
  intros Hstep xs; induction xs as [| x xs IH]; intros done w w' HI Hrun; simpl in Hrun.
  - unfold Py.ret in Hrun. inversion Hrun; subst. rewrite app_nil_r. exact HI.
  - unfold Py.bind in Hrun.
    destruct (f x w) as [[e | []] w1] eqn:Hx; [discriminate |].
    replace (done ++ x :: xs) with ((done ++ [x]) ++ xs)
      by (rewrite <- app_assoc; reflexivity).
    eapply IH; [eapply Hstep; eassumption | exact Hrun].
Qed.

(** Two runs from related namespaces stay related and end alike. *)
Lemma for_related (Rel : W -> W -> Prop) f :
  (forall x w1 w2, Rel w1 w2 ->
     fst (f x w1) = fst (f x w2) /\ Rel (snd (f x w1)) (snd (f x w2))) ->
  forall xs w1 w2, Rel w1 w2 ->
    fst (Py.for_ xs f w1) = fst (Py.for_ xs f w2) /\
    Rel (snd (Py.for_ xs f w1)) (snd (Py.for_ xs f w2)).
Proof.
  intros Hstep xs; induction xs as [| x xs IH]; intros w1 w2 HR; simpl.
  - split; [reflexivity | exact HR].
  - unfold Py.bind. destruct (Hstep x w1 w2 HR) as [Hout Hrel].
    destruct (f x w1) as [[e1 | u1] w1'], (f x w2) as [[e2 | u2] w2'];
      simpl in *; try discriminate.
    + split; [exact Hout | exact Hrel].
    + apply IH; exact Hrel.
Qed.

(** Success of every iteration gives success of the loop. *)
Lemma for_total (P : W -> Prop) f (xs : list A) :
  (forall x w, In x xs -> P w -> exists w', f x w = (inr tt, w') /\ P w') ->
  forall w, P w -> exists w', Py.for_ xs f w = (inr tt, w') /\ P w'.
Proof.
  induction xs as [| x xs IH]; intros Hstep w HP; simpl.
  - exists w; split; [reflexivity | exact HP].
  - destruct (Hstep x w (or_introl eq_refl) HP) as [w1 [Hx HP1]].
    unfold Py.bind. rewrite Hx.
    apply IH; [| exact HP1].
    intros y v Hy; apply Hstep; right; exact Hy.
Qed.
End Loops.

Lemma for_map {W A B : Type} (g : A -> B) (xs : list A)
      (f : B -> Py.M W unit) (w : W) :
  Py.for_ (map g xs) f w = Py.for_ xs (fun a => f (g a)) w.
Proof.
  revert w; induction xs as [| x xs IH]; intros w; simpl; [reflexivity |].
  unfold Py.bind. destruct (f (g x) w) as [[e | u] w1]; [reflexivity | apply IH].
Qed.

Section Nested.
Context {W A B : Type}.

(** Two nested loops are one loop over the row-major product. *)
Lemma for_nested_flat (xs : list A) (ys : list B)
      (f : A -> B -> Py.M W unit) (w : W) :
  Py.for_ xs (fun x => Py.for_ ys (fun y => f x y)) w
  = Py.for_ (list_prod xs ys) (fun c => f (fst c) (snd c)) w.
Proof.
  revert w; induction xs as [| x xs IH]; intros w; simpl; [reflexivity |].
  rewrite for_app. unfold Py.bind. rewrite for_map. simpl.
  destruct (Py.for_ ys (fun y => f x y) w) as [[e | u] w1]; [reflexivity | apply IH].
Qed.
End Nested.
End PyFacts.

(** ** Cell 57 *)

Module SweepFacts.
Import Sweep.

(** Rows of the table against its columns. *)
Lemma pd_DataFrame_columns {Score : Type} (c1 c2 : list Z) (c3 c4 : list Score) df :
  pd_DataFrame c1 c2 c3 c4 = inr df ->
  map (@Number_of_trees Score) df = c1 /\ map (@Max_depth Score) df = c2 /\
  map (@MSE Score) df = c3 /\ map (@R2 Score) df = c4.
Proof.
  unfold pd_DataFrame.
  destruct ((length c1 =? length c2)%nat && (length c2 =? length c3)%nat
            && (length c3 =? length c4)%nat) eqn:Hlen; [| discriminate].
  apply andb_prop in Hlen as [Hlen H34]. apply andb_prop in Hlen as [H12 H23].
  apply Nat.eqb_eq in H12, H23, H34.
  intros Hdf; inversion Hdf; subst df; clear Hdf.
  revert c2 c3 c4 H12 H23 H34.
  induction c1 as [| a c1 IH]; intros [| b c2] [| c c3] [| d c4] H12 H23 H34;
    simpl in *; try discriminate; [repeat split; reflexivity |].
  injection H12 as H12; injection H23 as H23; injection H34 as H34.
  destruct (IH c2 c3 c4 H12 H23 H34) as (E1 & E2 & E3 & E4).
  repeat split; f_equal; assumption.
Qed.

Lemma pd_DataFrame_same_length {Score : Type} (c1 c2 : list Z) (c3 c4 : list Score) :
  length c1 = length c2 -> length c2 = length c3 -> length c3 = length c4 ->
  exists df, pd_DataFrame c1 c2 c3 c4 = inr df.
Proof.
  intros H12 H23 H34. unfold pd_DataFrame.
  rewrite H12, H23, H34, !Nat.eqb_refl. simpl. eexists; reflexivity.
Qed.

Lemma combine_fst_snd {A B : Type} (l : list (A * B)) :
  combine (map fst l) (map snd l) = l.
Proof.
  induction l as [| [a b] l IH]; simpl; [reflexivity | rewrite IH; reflexivity].
Qed.

Lemma grid_cell_columns {Score : Type} (df : list (@SweepResult Score)) :
  map (@grid_cell Score) df = combine (map (@Number_of_trees Score) df)
                                      (map (@Max_depth Score) df).
Proof.
  induction df as [| r df IH]; simpl; [reflexivity | rewrite IH; reflexivity].
Qed.

Lemma models_fit_app (tr1 tr2 : list Event) :
  models_fit (tr1 ++ tr2) = (models_fit tr1 + models_fit tr2)%nat.
Proof. unfold models_fit. rewrite filter_app, length_app. reflexivity. Qed.

Section Cell57.
Context {Matrix Vector Estimator Rng Score : Type}.
Context {T : Trainer Matrix Vector Estimator Rng}.
Context {S : Scorer Vector Score}.
Variables (x_train_scaled : Matrix) (y_train : Vector).
Variables (x_test_scaled : Matrix) (y_test : Vector).

Abbreviation Globals := (@Globals Vector Estimator Rng Score).
Abbreviation body := (body x_train_scaled y_train x_test_scaled y_test).
Abbreviation body_at := (body_at x_train_scaled y_train x_test_scaled y_test).
Abbreviation run_cells := (run_cells x_train_scaled y_train x_test_scaled y_test).
Abbreviation loops := (loops x_train_scaled y_train x_test_scaled y_test).
Abbreviation cell_57 := (cell_57 x_train_scaled y_train x_test_scaled y_test).
Abbreviation cell_ok := (cell_ok x_train_scaled y_train x_test_scaled y_test).
Abbreviation fit_or_predict_fails :=
  (fit_or_predict_fails x_train_scaled y_train x_test_scaled).

Implicit Types (w : Globals) (tree depth : Z).

Ltac run_body :=
  unfold Sweep.body, call_fit, call_predict, append_tree_count,
    append_tree_depth, append_tuned_rf_MSE, append_tuned_rf_R2,
    Py.bind, Py.modify, Py.call, Py.get; simpl.

(** A completed iteration: what was called and what it left. *)
Lemma body_returns tree depth w w' :
  body tree depth w = (inr tt, w') ->
  exists m' g' y mse r2,
    fit (RandomForestRegressor tree depth) x_train_scaled y_train (np_random w)
      = (inr m', g') /\
    predict m' x_test_scaled = inr y /\
    mean_squared_error y_test y = inr mse /\
    r2_score y_test y = inr r2 /\
    w' = mkGlobals g'
           ((trace w ++ [EvFit tree depth true]) ++ [EvPredict tree depth true])
           (tree_count w ++ [tree]) (tree_depth w ++ [depth])
           (tuned_rf_MSE w ++ [mse]) (tuned_rf_R2 w ++ [r2])
           (Some m') (Some y) (results_df w).
Proof.
  run_body.
  destruct (fit _ _ _ _) as [[e | m'] g'] eqn:Hfit; simpl; [discriminate |].
  destruct (predict m' x_test_scaled) as [e | y] eqn:Hpred; simpl; [discriminate |].
  destruct (mean_squared_error y_test y) as [e | mse] eqn:Hmse; simpl; [discriminate |].
  destruct (r2_score y_test y) as [e | r2] eqn:Hr2; simpl; [discriminate |].
  intros H; inversion H; subst w'; clear H.
  exists m', g', y, mse, r2. repeat split; assumption.
Qed.

Lemma body_total tree depth w :
  cell_ok tree depth (np_random w) -> exists w', body tree depth w = (inr tt, w').
Proof.
  intros (m' & g' & y & mse & r2 & Hfit & Hpred & Hmse & Hr2).
  run_body. rewrite Hfit; simpl. rewrite Hpred; simpl. rewrite Hmse; simpl.
  rewrite Hr2; simpl. eexists; reflexivity.
Qed.

(** An iteration in which [fit] raises: the exception leaves the body at
    once; the four lists and the table are as the iteration found them. *)
Lemma body_fit_raises tree depth w e g' :
  fit (RandomForestRegressor tree depth) x_train_scaled y_train (np_random w)
    = (inl e, g') ->
  exists w',
    body tree depth w = (inl e, w') /\
    trace w' = trace w ++ [EvFit tree depth false] /\
    tree_count w' = tree_count w /\ tree_depth w' = tree_depth w /\
    tuned_rf_MSE w' = tuned_rf_MSE w /\ tuned_rf_R2 w' = tuned_rf_R2 w /\
    results_df w' = results_df w.
Proof.
  intros Hfit. run_body. rewrite Hfit; simpl.
  eexists; split; [reflexivity |]. simpl. repeat split; reflexivity.
Qed.

(** The same when [fit] returns and [predict] raises. *)
Lemma body_predict_raises tree depth w e m' g' :
  fit (RandomForestRegressor tree depth) x_train_scaled y_train (np_random w)
    = (inr m', g') ->
  predict m' x_test_scaled = inl e ->
  exists w',
    body tree depth w = (inl e, w') /\
    trace w' = (trace w ++ [EvFit tree depth true]) ++ [EvPredict tree depth false] /\
    tree_count w' = tree_count w /\ tree_depth w' = tree_depth w /\
    tuned_rf_MSE w' = tuned_rf_MSE w /\ tuned_rf_R2 w' = tuned_rf_R2 w /\
    results_df w' = results_df w.
Proof.
  intros Hfit Hpred. run_body. rewrite Hfit; simpl. rewrite Hpred; simpl.
  eexists; split; [reflexivity |]. simpl. repeat split; reflexivity.
Qed.

(** Related namespaces give related iterations. *)
Lemma body_same_inputs c w1 w2 :
  same_inputs w1 w2 ->
  fst (body_at c w1) = fst (body_at c w2) /\
  same_inputs (snd (body_at c w1)) (snd (body_at c w2)).
Proof.
  intros (Hg & Hc & Hd & Hm & Hr). destruct c as [tree depth].
  unfold Sweep.body_at, Sweep.same_inputs; simpl. run_body. rewrite Hg.
  destruct (fit _ _ _ _) as [[e | m'] g']; simpl; [repeat split; congruence |].
  destruct (predict m' x_test_scaled) as [e | y]; simpl;
    [repeat split; congruence |].
  destruct (mean_squared_error y_test y) as [e | mse]; simpl;
    [repeat split; congruence |].
  destruct (r2_score y_test y) as [e | r2]; simpl; repeat split; congruence.
Qed.

Abbreviation scored := (scored y_test).
Abbreviation evaluated := (evaluated y_test).

Lemma evaluated_step tr0 df0 done c w w' :
  evaluated tr0 df0 done w ->
  body_at c w = (inr tt, w') ->
  evaluated tr0 df0 (done ++ [c]) w'.
Proof.
  intros (Hc & Hd & Hs & Hl & Hf & Hdf) Hrun.
  destruct c as [tree depth]. unfold Sweep.body_at in Hrun; simpl in Hrun.
  apply body_returns in Hrun
    as (m' & g' & y & mse & r2 & _ & _ & Hmse & Hr2 & ->).
  unfold Sweep.evaluated; simpl.
  rewrite !map_app, !length_app, !models_fit_app, Hc, Hd, Hl, Hf. simpl.
  repeat split; try reflexivity.
  - apply Forall2_app; [exact Hs |].
    constructor; [exists y; split; assumption | constructor].
  - unfold models_fit; simpl. lia.
  - exact Hdf.
Qed.

Lemma run_cells_evaluated tr0 df0 cells done w w' :
  evaluated tr0 df0 done w ->
  run_cells cells w = (inr tt, w') ->
  evaluated tr0 df0 (done ++ cells) w'.
Proof.
  intros Hev Hrun. unfold Sweep.run_cells in Hrun.
  eapply (PyFacts.for_invariant (fun done w => evaluated tr0 df0 done w));
    [| exact Hev | exact Hrun].
  intros d c v v' Hd Hc. eapply evaluated_step; eassumption.
Qed.

Lemma run_cells_total cells w :
  (forall c g, In c cells -> cell_ok (fst c) (snd c) g) ->
  exists w', run_cells cells w = (inr tt, w').
Proof.
  intros Hok. unfold Sweep.run_cells.
  destruct (PyFacts.for_total (fun _ : Globals => True) body_at cells) with (w := w)
    as [w' [Hrun _]]; [| exact I | exists w'; exact Hrun].
  intros c v Hin _. destruct (body_total (fst c) (snd c) v (Hok c _ Hin)) as [v' Hv].
  exists v'; split; [exact Hv | exact I].
Qed.

Lemma loops_flat trees depths w :
  loops trees depths w = run_cells (list_prod trees depths) w.
Proof.
  unfold Sweep.loops, Sweep.run_cells, Sweep.body_at.
  apply (PyFacts.for_nested_flat trees depths (fun tree depth => body tree depth)).
Qed.

(** The namespace in which the loops start. *)
Lemma init_lists_evaluated w :
  exists w0,
    init_lists w = (inr tt, w0) /\
    evaluated (trace w) (results_df w) [] w0 /\
    np_random w0 = np_random w /\ trace w0 = trace w.
Proof.
  eexists; split; [reflexivity |]. unfold Sweep.evaluated; simpl.
  repeat split; try reflexivity; [constructor | lia].
Qed.

Lemma make_results_df_evaluated tr0 df0 cells w :
  evaluated tr0 df0 cells w ->
  exists df,
    make_results_df w = (inr tt, set_results_df df w) /\
    pd_DataFrame (tree_count w) (tree_depth w) (tuned_rf_MSE w) (tuned_rf_R2 w)
      = inr df /\
    map (@grid_cell Score) df = cells /\
    Forall (fun r => scored (MSE r) (R2 r)) df.
Proof.
  intros (Hc & Hd & Hs & Hl & _ & _).
  destruct (pd_DataFrame_same_length (tree_count w) (tree_depth w)
              (tuned_rf_MSE w) (tuned_rf_R2 w)) as [df Hdf].
  - rewrite Hc, Hd, !length_map. reflexivity.
  - rewrite Hd, Hl, length_map. reflexivity.
  - apply (Forall2_length Hs).
  - exists df. unfold Sweep.make_results_df, Py.bind, Py.get, Py.call, Py.modify.
    rewrite Hdf. split; [reflexivity | split; [reflexivity |]].
    destruct (pd_DataFrame_columns _ _ _ _ _ Hdf) as (E1 & E2 & E3 & E4).
    split.
    + rewrite grid_cell_columns, E1, E2, Hc, Hd. apply combine_fst_snd.
    + rewrite <- E3, <- E4 in Hs. clear - Hs.
      induction df as [| r df IH]; simpl in Hs; [constructor |].
      inversion Hs; subst. constructor; [assumption | apply IH; assumption].
Qed.

(** Cell 57 as its three stages. *)
Lemma cell_57_stages trees depths w :
  exists w0,
    init_lists w = (inr tt, w0) /\
    cell_57 trees depths w =
      match run_cells (list_prod trees depths) w0 with
      | (inl e, w1) => (inl e, w1)
      | (inr _, w1) => make_results_df w1
      end.
Proof.
  eexists; split; [reflexivity |].
  unfold Sweep.cell_57. unfold Py.bind at 1 2.
  change (init_lists w) with (inr (A := exn) tt, snd (init_lists w)).
  cbv iota beta. rewrite loops_flat. reflexivity.
Qed.

(** A run of cell 57 that ends normally: the table it binds. *)
Lemma cell_57_returns trees depths w w' :
  cell_57 trees depths w = (inr tt, w') ->
  exists df,
    results_df w' = Some df /\
    map (@grid_cell Score) df = list_prod trees depths /\
    Forall (fun r => scored (MSE r) (R2 r)) df.
Proof.
  destruct (cell_57_stages trees depths w) as (w0 & Hinit & ->).
  destruct (init_lists_evaluated w) as (w0' & Hinit' & Hev & _).
  rewrite Hinit in Hinit'; inversion Hinit'; subst w0'; clear Hinit'.
  destruct (run_cells _ w0) as [[e | []] w1] eqn:Hrun; [discriminate |].
  pose proof (run_cells_evaluated _ _ _ _ _ _ Hev Hrun) as Hev1. simpl in Hev1.
  destruct (make_results_df_evaluated _ _ _ _ Hev1) as (df & -> & _ & Hcells & Hsc).
  intros H; inversion H; subst w'. exists df. simpl. auto.
Qed.

(** An iteration that raises ends the whole cell there. *)
Lemma cell_57_aborts trees depths pre c post w w0 w1 w2 e :
  list_prod trees depths = pre ++ c :: post ->
  init_lists w = (inr tt, w0) ->
  run_cells pre w0 = (inr tt, w1) ->
  body_at c w1 = (inl e, w2) ->
  cell_57 trees depths w = (inl e, w2).
Proof.
  intros Hgrid Hinit Hpre Hc.
  destruct (cell_57_stages trees depths w) as (w0' & Hinit' & ->).
  rewrite Hinit in Hinit'; inversion Hinit'; subst w0'.
  rewrite Hgrid. unfold Sweep.run_cells.
  rewrite (PyFacts.for_abort pre post c body_at _ _ _ _ Hpre Hc). reflexivity.
Qed.

(** The namespace reached by emptying the lists and evaluating [pre]. *)
Lemma prefix_evaluated pre w w1 :
  (init_lists ;; run_cells pre)%py w = (inr tt, w1) ->
  exists w0,
    init_lists w = (inr tt, w0) /\ run_cells pre w0 = (inr tt, w1) /\
    evaluated (trace w) (results_df w) pre w1.
Proof.
  intros Hrun. destruct (init_lists_evaluated w) as (w0 & Hinit & Hev & _).
  unfold Py.bind in Hrun. rewrite Hinit in Hrun.
  exists w0. split; [exact Hinit | split; [exact Hrun |]].
  apply (run_cells_evaluated _ _ pre [] w0 w1 Hev Hrun).
Qed.

(** The inner loop over a row of the grid, as a loop over its cells. *)
Lemma inner_loop_cells tree ds w :
  Py.for_ ds (fun depth => body tree depth) w = run_cells (map (pair tree) ds) w.
Proof. unfold Sweep.run_cells. rewrite PyFacts.for_map. reflexivity. Qed.

(** The nested loops, cut after the inner iteration at [(tree, depth)]:
    what has run, and what is still to run. *)
Lemma loops_split ts1 tree ts2 ds1 depth ds2 w :
  loops (ts1 ++ tree :: ts2) (ds1 ++ depth :: ds2) w
  = ((loops ts1 (ds1 ++ depth :: ds2) ;;
      Py.for_ ds1 (fun depth' => body tree depth') ;;
      body tree depth) ;;
     Py.for_ ds2 (fun depth' => body tree depth') ;;
     loops ts2 (ds1 ++ depth :: ds2))%py w.
Proof.
  unfold Sweep.loops. rewrite PyFacts.for_app. unfold Py.bind.
  destruct (Py.for_ ts1 _ w) as [[e | u] w1]; [reflexivity |]. simpl.
  unfold Py.bind. rewrite PyFacts.for_app. unfold Py.bind.
  destruct (Py.for_ ds1 _ w1) as [[e | u'] w2]; [reflexivity |]. simpl.
  unfold Py.bind. destruct (Sweep.body _ _ _ _ tree depth w2) as [[e | u''] w3];
    reflexivity.
Qed.

(** C1.  When the library calls of every grid cell return, the sweep
    returns a table with exactly one row per cell of the Cartesian
    product of the two lists, [length trees * length depths] rows, in
    row-major order (trees outer, depths inner): nothing is merged and
    nothing is sorted. *)
Theorem sweep_row_major trees depths :
  (forall tree depth g, In tree trees -> In depth depths -> cell_ok tree depth g) ->
  forall w, exists w' df,
    cell_57 trees depths w = (inr tt, w') /\
    results_df w' = Some df /\
    length df = (length trees * length depths)%nat /\
    map (@grid_cell Score) df = list_prod trees depths.
Proof.
  intros Hok w.
  destruct (cell_57_stages trees depths w) as (w0 & Hinit & ->).
  destruct (init_lists_evaluated w) as (w0' & Hinit' & Hev & _).
  rewrite Hinit in Hinit'; inversion Hinit'; subst w0'; clear Hinit'.
  destruct (run_cells_total (list_prod trees depths) w0) as [w1 Hrun].
  { intros [tree depth] g Hin. apply in_prod_iff in Hin as [Ht Hd].
    apply Hok; assumption. }
  rewrite Hrun.
  pose proof (run_cells_evaluated _ _ _ _ _ _ Hev Hrun) as Hev1; simpl in Hev1.
  destruct (make_results_df_evaluated _ _ _ _ Hev1) as (df & Hmk & _ & Hcells & _).
  exists (set_results_df df w1), df.
  repeat split; [exact Hmk | | exact Hcells].
  rewrite <- (length_map (@grid_cell Score)), Hcells. apply length_prod.
Qed.

(** C10.  After the inner-loop iteration at outer position [length ts1]
    and inner position [length ds1], each of the four result lists has
    as many entries as grid cells have been evaluated; and when the
    loops end, the table is built from four columns of one length. *)
Theorem result_lists_in_step trees depths w :
  (forall ts1 tree ts2 ds1 depth ds2 w',
      trees = ts1 ++ tree :: ts2 ->
      depths = ds1 ++ depth :: ds2 ->
      (init_lists ;; loops ts1 depths ;;
       Py.for_ ds1 (fun depth' => body tree depth') ;;
       body tree depth)%py w = (inr tt, w') ->
      length (tree_count w') = (length ts1 * length depths + length ds1 + 1)%nat /\
      length (tree_depth w') = length (tree_count w') /\
      length (tuned_rf_MSE w') = length (tree_count w') /\
      length (tuned_rf_R2 w') = length (tree_count w')) /\
  (forall w1,
      (init_lists ;; loops trees depths)%py w = (inr tt, w1) ->
      length (tree_depth w1) = length (tree_count w1) /\
      length (tuned_rf_MSE w1) = length (tree_count w1) /\
      length (tuned_rf_R2 w1) = length (tree_count w1) /\
      exists df,
        pd_DataFrame (tree_count w1) (tree_depth w1) (tuned_rf_MSE w1)
                     (tuned_rf_R2 w1) = inr df /\
        length df = (length trees * length depths)%nat).
Proof.
  destruct (init_lists_evaluated w) as (w0 & Hinit & Hev & _). split.
  - intros ts1 tree ts2 ds1 depth ds2 w' _ _ Hrun.
    unfold Py.bind in Hrun. rewrite Hinit, loops_flat in Hrun.
    destruct (run_cells (list_prod ts1 depths) w0) as [[e | []] w1] eqn:H1;
      [discriminate |].
    rewrite inner_loop_cells in Hrun.
    destruct (run_cells (map (pair tree) ds1) w1) as [[e | []] w2] eqn:H2;
      [discriminate |].
    pose proof (run_cells_evaluated _ _ _ _ _ _ Hev H1) as Hev1.
    pose proof (run_cells_evaluated _ _ _ _ _ _ Hev1 H2) as Hev2.
    pose proof (evaluated_step _ _ _ (tree, depth) _ _ Hev2 Hrun)
      as (Hc & Hd & Hs & Hl & _).
    rewrite <- (Forall2_length Hs), Hc, Hd, Hl, !length_map.
    simpl. rewrite !length_app, length_map, length_prod. simpl.
    repeat split; lia.
  - intros w1 Hrun. unfold Py.bind in Hrun. rewrite Hinit, loops_flat in Hrun.
    pose proof (run_cells_evaluated _ _ _ _ _ _ Hev Hrun) as Hev1; simpl in Hev1.
    destruct (make_results_df_evaluated _ _ _ _ Hev1) as (df & _ & Hdf & Hcells & _).
    destruct Hev1 as (Hc & Hd & Hs & Hl & _).
    rewrite <- (Forall2_length Hs), Hc, Hd, Hl, !length_map.
    repeat split. exists df; split; [| rewrite <- (length_map (@grid_cell Score)), Hcells;
                                       apply length_prod].
    rewrite <- Hc, <- Hd. exact Hdf.
Qed.

(** C5.  When [fit] or [predict] raises in a grid cell that the sweep
    reaches, the cell ends there with that exception: the failing call
    is the last call made (no later cell is evaluated, the cell is not
    skipped), and no table is bound -- [results_df] is what it was
    before the cell ran, and the score lists stop short of the grid. *)
Theorem sweep_aborts_on_cell_failure trees depths pre tree depth post w w1 e :
  list_prod trees depths = pre ++ (tree, depth) :: post ->
  (init_lists ;; run_cells pre)%py w = (inr tt, w1) ->
  fit_or_predict_fails tree depth (np_random w1) e ->
  exists w',
    cell_57 trees depths w = (inl e, w') /\
    results_df w' = results_df w /\
    (trace w' = trace w1 ++ [EvFit tree depth false] \/
     trace w' = (trace w1 ++ [EvFit tree depth true]) ++ [EvPredict tree depth false]) /\
    length (tuned_rf_MSE w') = length pre /\
    length (tuned_rf_R2 w') = length pre /\
    (length pre < length trees * length depths)%nat.
Proof.
  intros Hgrid Hpre Hfail.
  destruct (prefix_evaluated _ _ _ Hpre) as (w0 & Hinit & Hrun & Hev).
  destruct Hev as (_ & _ & Hs & Hl & _ & Hdf).
  assert (Hshort : (length pre < length trees * length depths)%nat).
  { rewrite <- length_prod, Hgrid, length_app. simpl. lia. }
  destruct Hfail as [(g' & Hfit) | (m' & g' & Hfit & Hpred)].
  - destruct (body_fit_raises tree depth w1 e g' Hfit)
      as (w' & Hbody & Htr & _ & _ & Hm & Hr & Hdf').
    exists w'. rewrite (cell_57_aborts trees depths pre (tree, depth) post
                          w w0 w1 w' e Hgrid Hinit Hrun Hbody).
    rewrite Hm, Hr, <- (Forall2_length Hs), Hl, Hdf', Hdf. auto 10.
  - destruct (body_predict_raises tree depth w1 e m' g' Hfit Hpred)
      as (w' & Hbody & Htr & _ & _ & Hm & Hr & Hdf').
    exists w'. rewrite (cell_57_aborts trees depths pre (tree, depth) post
                          w w0 w1 w' e Hgrid Hinit Hrun Hbody).
    rewrite Hm, Hr, <- (Forall2_length Hs), Hl, Hdf', Hdf. auto 10.
Qed.


(** A grid without cells: nothing is called, an empty table is bound. *)
Lemma cell_57_empty_grid trees depths w :
  list_prod trees depths = [] ->
  exists w',
    cell_57 trees depths w = (inr tt, w') /\
    results_df w' = Some [] /\ trace w' = trace w.
Proof.
  intros Hgrid.
  destruct (cell_57_stages trees depths w) as (w0 & Hinit & ->).
  inversion Hinit as [Hw0]. rewrite Hgrid. simpl.
  eexists. split; [reflexivity |]. simpl. split; reflexivity.
Qed.

(** C3, amended.  The sweep has no schema check of its own: the test
    matrix is first looked at by the [predict] of the first grid cell.
    With feature matrices that differ in their number of columns and a
    trainer whose [predict] rejects a matrix that has another number of
    columns than the one the model was fit on: on an empty grid the
    sweep returns normally with an empty table; otherwise the first
    cell's [fit] is called on the training set, and when it raises the
    sweep fails with its exception, and when it returns the sweep fails
    with the trainer's [ValueError] at the first [predict] -- one model
    has been fit by then, nothing else is called, no table is bound. *)
Theorem schema_mismatch_surfaces_at_predict
        (n_features : Matrix -> nat) trees depths w :
  (forall m X y g m1 g1 X',
      fit m X y g = (inr m1, g1) -> n_features X <> n_features X' ->
      predict m1 X' = inl ValueError) ->
  n_features x_train_scaled <> n_features x_test_scaled ->
  (list_prod trees depths = [] ->
   exists w',
     cell_57 trees depths w = (inr tt, w') /\
     results_df w' = Some [] /\ trace w' = trace w) /\
  (forall tree depth rest,
      list_prod trees depths = (tree, depth) :: rest ->
      (forall e g',
          fit (RandomForestRegressor tree depth) x_train_scaled y_train (np_random w)
            = (inl e, g') ->
          exists w',
            cell_57 trees depths w = (inl e, w') /\
            trace w' = trace w ++ [EvFit tree depth false] /\
            models_fit (trace w') = models_fit (trace w) /\
            results_df w' = results_df w) /\
      (forall m' g',
          fit (RandomForestRegressor tree depth) x_train_scaled y_train (np_random w)
            = (inr m', g') ->
          exists w',
            cell_57 trees depths w = (inl ValueError, w') /\
            trace w' = (trace w ++ [EvFit tree depth true])
                         ++ [EvPredict tree depth false] /\
            models_fit (trace w') = (models_fit (trace w) + 1)%nat /\
            results_df w' = results_df w)).
Proof.
  intros Hchk Hneq. split; [apply cell_57_empty_grid |].
  intros tree depth rest Hgrid.
  destruct (init_lists_evaluated w) as (w0 & Hinit & _ & Hg & Htr0).
  assert (Hdf0 : results_df w0 = results_df w).
  { inversion Hinit; reflexivity. }
  split.
  - intros e g' Hfit. rewrite <- Hg in Hfit.
    destruct (body_fit_raises tree depth w0 e g' Hfit)
      as (w' & Hbody & Htr & _ & _ & _ & _ & Hdf').
    exists w'. rewrite (cell_57_aborts trees depths [] (tree, depth) rest
                          w w0 w0 w' _ Hgrid Hinit eq_refl Hbody).
    rewrite Htr, !models_fit_app, Htr0, Hdf', Hdf0.
    repeat split. unfold models_fit; simpl. lia.
  - intros m' g' Hfit. rewrite <- Hg in Hfit.
    pose proof (Hchk _ _ _ _ _ _ x_test_scaled Hfit Hneq) as Hpred.
    destruct (body_predict_raises tree depth w0 _ m' g' Hfit Hpred)
      as (w' & Hbody & Htr & _ & _ & _ & _ & Hdf').
    exists w'. rewrite (cell_57_aborts trees depths [] (tree, depth) rest
                          w w0 w0 w' _ Hgrid Hinit eq_refl Hbody).
    rewrite Htr, !models_fit_app, Htr0, Hdf', Hdf0.
    repeat split. unfold models_fit; simpl. lia.
Qed.

(** C4.  Two runs of the sweep that start with numpy's global generator
    in the same state -- whatever else the two namespaces hold, the
    second may be the one the first run left behind -- end alike and
    leave the same hyperparameter and score lists, hence the same MSE
    and R2 in every grid cell, and the same table. *)
Theorem sweep_deterministic trees depths w1 w2 :
  np_random w1 = np_random w2 ->
  fst (cell_57 trees depths w1) = fst (cell_57 trees depths w2) /\
  tree_count (snd (cell_57 trees depths w1)) = tree_count (snd (cell_57 trees depths w2)) /\
  tree_depth (snd (cell_57 trees depths w1)) = tree_depth (snd (cell_57 trees depths w2)) /\
  tuned_rf_MSE (snd (cell_57 trees depths w1))
    = tuned_rf_MSE (snd (cell_57 trees depths w2)) /\
  tuned_rf_R2 (snd (cell_57 trees depths w1))
    = tuned_rf_R2 (snd (cell_57 trees depths w2)) /\
  (fst (cell_57 trees depths w1) = inr tt ->
   results_df (snd (cell_57 trees depths w1))
     = results_df (snd (cell_57 trees depths w2))).
Proof.
  intros Hg.
  destruct (cell_57_stages trees depths w1) as (v1 & Hinit1 & ->).
  destruct (cell_57_stages trees depths w2) as (v2 & Hinit2 & ->).
  assert (Hsame : same_inputs v1 v2).
  { inversion Hinit1; inversion Hinit2; unfold Sweep.same_inputs; simpl; auto. }
  destruct (PyFacts.for_related same_inputs body_at body_same_inputs
              (list_prod trees depths) v1 v2 Hsame) as [Hout Hrel].
  fold (run_cells (list_prod trees depths) v1) in Hout, Hrel.
  fold (run_cells (list_prod trees depths) v2) in Hout, Hrel.
  destruct (run_cells (list_prod trees depths) v1) as [[e1 | []] u1],
           (run_cells (list_prod trees depths) v2) as [[e2 | []] u2];
    simpl in Hout, Hrel; try discriminate.
  - destruct Hrel as (_ & Hc & Hd & Hm & Hr). simpl.
    repeat split; try assumption. discriminate.
  - destruct Hrel as (_ & Hc & Hd & Hm & Hr).
    unfold Sweep.make_results_df, Py.bind, Py.get, Py.call, Py.modify.
    rewrite Hc, Hd, Hm, Hr.
    destruct (pd_DataFrame _ _ _ _) as [e | df]; simpl;
      repeat split; try congruence.
Qed.

End Cell57.
End SweepFacts.


(** ** Sums, means and variances *)

Module StatsFacts.
Import Stats.
Local Open Scope R_scope.

Lemma Rinv_nonneg (x : R) : 0 <= x -> 0 <= / x.
Proof.
  intros Hx. destruct (Req_dec x 0) as [-> | Hne].
  - rewrite Rinv_0. lra.
  - left. apply Rinv_0_lt_compat. lra.
Qed.

Lemma sum_nonneg (xs : list R) : Forall (fun x => 0 <= x) xs -> 0 <= sum xs.
Proof.
  induction 1 as [| x xs Hx _ IH]; simpl; lra.
Qed.

Lemma sum_squares_nonneg {A : Type} (f : A -> R) (l : list A) :
  0 <= sum (map (fun a => Rsqr (f a)) l).
Proof.
  apply sum_nonneg. apply Forall_map, Forall_forall. intros a _. apply Rle_0_sqr.
Qed.

Lemma sum_map_mult {A : Type} (k : R) (f : A -> R) (l : list A) :
  sum (map (fun a => k * f a) l) = k * sum (map f l).
Proof.
  induction l as [| a l IH]; simpl; [ring | rewrite IH; ring].
Qed.

Lemma sum_map_zero {A : Type} (f : A -> R) (l : list A) :
  (forall a, In a l -> f a = 0) -> sum (map f l) = 0.
Proof.
  induction l as [| a l IH]; intros Hf; simpl; [reflexivity |].
  rewrite (Hf a (or_introl eq_refl)), IH; [ring |].
  intros b Hb. apply Hf. right; exact Hb.
Qed.

Lemma sum_map_minus (c : R) (l : list R) :
  sum (map (fun x => x - c) l) = sum l - INR (length l) * c.
Proof.
  induction l as [| x l IH]; [simpl; ring |].
  cbn [map sum length]. rewrite IH, S_INR. ring.
Qed.

Lemma sum_centered (l : list R) : sum (map (fun x => x - mean l) l) = 0.
Proof.
  destruct l as [| x l]; [reflexivity |].
  rewrite sum_map_minus. unfold mean.
  assert (INR (length (x :: l)) <> 0) by (apply not_0_INR; discriminate).
  field. assumption.
Qed.

Lemma var_nonneg (l : list R) : 0 <= var l.
Proof.
  unfold var, mean, Rdiv. apply Rmult_le_pos.
  - apply (sum_squares_nonneg (fun x => x - (sum l * / INR (length l)))).
  - apply Rinv_nonneg, pos_INR.
Qed.

(** A sum of non-negative terms is zero only when each term is. *)
Lemma sum_zero_terms (xs : list R) :
  Forall (fun x => 0 <= x) xs -> sum xs = 0 -> Forall (fun x => x = 0) xs.
Proof.
  induction 1 as [| x xs Hx Hxs IH]; simpl; intros Hsum; [constructor |].
  pose proof (sum_nonneg xs Hxs) as Hs.
  constructor; [lra | apply IH; lra].
Qed.

(** A column of variance zero is constant. *)
Lemma var_zero_constant (l : list R) :
  var l = 0 -> forall x, In x l -> x = mean l.
Proof.
  intros Hvar x Hx. destruct l as [| y l]; [contradiction |].
  assert (Hn : 0 < INR (length (y :: l))) by (apply lt_0_INR; simpl; lia).
  unfold var in Hvar. unfold mean at 1 in Hvar.
  rewrite length_map in Hvar.
  assert (Hsum : sum (map (fun x => Rsqr (x - mean (y :: l))) (y :: l)) = 0).
  { apply Rmult_eq_reg_r with (r := / INR (length (y :: l))).
    - rewrite Rmult_0_l. exact Hvar.
    - apply Rinv_neq_0_compat. lra. }
  assert (Hpos : Forall (fun z => 0 <= z)
                        (map (fun x => Rsqr (x - mean (y :: l))) (y :: l))).
  { apply Forall_map, Forall_forall. intros a _. apply Rle_0_sqr. }
  pose proof (sum_zero_terms _ Hpos Hsum) as Hall.
  rewrite Forall_map, Forall_forall in Hall.
  specialize (Hall x Hx). apply Rsqr_0_uniq in Hall. lra.
Qed.
End StatsFacts.

(** ** The scorer on real numbers *)

Module MetricsFacts.
Import Stats Metrics SklearnMetrics Sweep StatsFacts.
Local Open Scope R_scope.

Lemma mse_nonneg (y_true y_pred : list R) : 0 <= mse y_true y_pred.
Proof.
  unfold mse, mean, squared_errors, Rdiv. apply Rmult_le_pos.
  - apply (sum_squares_nonneg (fun p => fst p - snd p)).
  - apply Rinv_nonneg, pos_INR.
Qed.

(** On two rows or more the coefficient is a number, at most 1. *)
Lemma r2_value_le_1 (y_true y_pred : list R) :
  (2 <= length y_true)%nat ->
  exists x, r2_value y_true y_pred = Finite x /\ x <= 1.
Proof.
  intros Hlen. unfold r2_value.
  destruct (Nat.ltb_spec (length y_true) 2) as [Hlt | _]; [lia |].
  destruct (Req_EM_T (ss_tot y_true) 0) as [_ | Hne].
  - destruct (Req_EM_T (ss_res y_true y_pred) 0); eexists; split;
      try reflexivity; lra.
  - eexists; split; [reflexivity |].
    assert (Hres : 0 <= ss_res y_true y_pred)
      by apply (sum_squares_nonneg (fun p => fst p - snd p)).
    assert (Htot : 0 <= ss_tot y_true)
      by apply (sum_squares_nonneg (fun y => y - mean y_true)).
    assert (0 <= ss_res y_true y_pred / ss_tot y_true); [| lra].
    unfold Rdiv. apply Rmult_le_pos; [exact Hres |].
    left. apply Rinv_0_lt_compat. lra.
Qed.

Lemma r2_value_one_row (y_true y_pred : list R) :
  length y_true = 1%nat -> r2_value y_true y_pred = NaN.
Proof.
  intros Hlen. unfold r2_value. rewrite Hlen. reflexivity.
Qed.

Section SklearnScores.
Context {Matrix Estimator Rng : Type}.
Context {T : Trainer Matrix (list R) Estimator Rng}.
Variables (x_train_scaled : Matrix) (y_train : list R).
Variables (x_test_scaled : Matrix) (y_test : list R).

(** C7, amended.  Every row of the table that the sweep binds has an
    [MSE] that is a non-negative number; its [R2] is a number of at most
    1 when the test partition has two rows or more, and [nan] when it
    has a single row. *)
Theorem scores_bounded (trees depths : list Z)
        (w w' : @Globals (list R) Estimator Rng pyfloat) (df : @DataFrame pyfloat) :
  cell_57 (S := SklearnScorer) x_train_scaled y_train x_test_scaled y_test
          trees depths w = (inr tt, w') ->
  results_df w' = Some df ->
  Forall (fun r =>
            (exists m, MSE r = Finite m /\ 0 <= m) /\
            ((2 <= length y_test)%nat -> exists x, R2 r = Finite x /\ x <= 1) /\
            (length y_test = 1%nat -> R2 r = NaN)) df.
Proof.
  intros Hrun Hdf.
  destruct (SweepFacts.cell_57_returns _ _ _ _ _ _ _ _ Hrun) as (df' & Hdf' & _ & Hsc).
  rewrite Hdf in Hdf'; inversion Hdf'; subst df'; clear Hdf'.
  eapply Forall_impl; [| exact Hsc].
  intros r (y & Hmse & Hr2). simpl in Hmse, Hr2.
  unfold sklearn_mean_squared_error, sklearn_r2_score in Hmse, Hr2.
  destruct (consistent y_test y); [| discriminate].
  inversion Hmse as [Em]; inversion Hr2 as [Er].
  split; [eexists; split; [reflexivity | apply mse_nonneg] |].
  split; [apply r2_value_le_1 | apply r2_value_one_row].
Qed.
End SklearnScores.
End MetricsFacts.


(** ** Cell 43 *)

Module ScalingFacts.
Import Stats Scaling StatsFacts.
Local Open Scope R_scope.

(** The divisor kept for a column: its standard deviation, or 1. *)
Lemma scale_of_varying_column (col : list R) :
  0 < var col -> scale_ (column_parameters col) = std col.
Proof.
  intros Hvar. unfold column_parameters; simpl.
  destruct (Req_EM_T (std col) 0) as [E | _]; [| reflexivity].
  pose proof (sqrt_lt_R0 (var col) Hvar) as Hpos. unfold std in E. lra.
Qed.

Lemma scale_of_constant_column (col : list R) :
  var col = 0 -> scale_ (column_parameters col) = 1.
Proof.
  intros Hvar. unfold column_parameters; simpl.
  destruct (Req_EM_T (std col) 0) as [_ | Hne]; [reflexivity |].
  exfalso. apply Hne. unfold std. rewrite Hvar. apply sqrt_0.
Qed.

Lemma mean_scale_column (col : list R) :
  mean (scale_column (column_parameters col) col) = 0.
Proof.
  unfold scale_column, mean at 1.
  change (mean_ (column_parameters col)) with (mean col).
  generalize (scale_ (column_parameters col)); intros s.
  rewrite (map_ext (fun x => (x - mean col) / s) (fun x => / s * (x - mean col)))
    by (intros x; unfold Rdiv; ring).
  rewrite (sum_map_mult (/ s) (fun x => x - mean col)), sum_centered.
  unfold Rdiv. ring.
Qed.

Lemma var_scale_column (col : list R) :
  0 < var col -> var (scale_column (column_parameters col) col) = 1.
Proof.
  intros Hvar. unfold var at 1. rewrite mean_scale_column.
  unfold scale_column. rewrite (scale_of_varying_column col Hvar).
  change (mean_ (column_parameters col)) with (mean col). rewrite map_map.
  assert (Hstd : std col * std col = var col)
    by (apply sqrt_sqrt; left; exact Hvar).
  assert (Hstd0 : std col <> 0).
  { intros E. rewrite E in Hstd. lra. }
  rewrite (map_ext (fun x => Rsqr ((x - mean col) / std col - 0))
                   (fun x => / var col * Rsqr (x - mean col))).
  2:{ intros x. rewrite <- Hstd. unfold Rsqr. field. exact Hstd0. }
  unfold mean at 1. rewrite length_map.
  rewrite (sum_map_mult (/ var col) (fun x => Rsqr (x - mean col))).
  unfold Rdiv. rewrite Rmult_assoc.
  assert (Hdef : sum (map (fun x => Rsqr (x - mean col)) col) * / INR (length col)
                 = var col).
  { unfold var, mean at 2, Rdiv. rewrite length_map. reflexivity. }
  rewrite Hdef. field. lra.
Qed.

Lemma std_scale_column (col : list R) :
  0 < var col -> std (scale_column (column_parameters col) col) = 1.
Proof.
  intros Hvar. unfold std at 1. rewrite (var_scale_column col Hvar). apply sqrt_1.
Qed.

(** A constant column is scaled to zeros, whatever it is divided by. *)
Lemma scale_constant_column (col : list R) :
  var col = 0 ->
  scale_column (column_parameters col) col = map (fun _ => 0) col.
Proof.
  intros Hvar. unfold scale_column.
  change (mean_ (column_parameters col)) with (mean col).
  apply map_ext_in. intros x Hx.
  rewrite (var_zero_constant col Hvar x Hx) at 1. unfold Rdiv. ring.
Qed.

(** Against a constant training column, any column is only shifted. *)
Lemma shift_by_constant_column (col t : list R) :
  var col = 0 ->
  scale_column (column_parameters col) t = map (fun x => x - mean col) t.
Proof.
  intros Hvar. unfold scale_column. rewrite (scale_of_constant_column col Hvar).
  change (mean_ (column_parameters col)) with (mean col).
  apply map_ext. intros x. unfold Rdiv. rewrite Rinv_1. ring.
Qed.

Lemma std_zeros {A : Type} (l : list A) : std (map (fun _ => 0) l) = 0.
Proof.
  assert (Hmean : mean (map (fun _ : A => 0) l) = 0).
  { unfold mean. rewrite (sum_map_zero (fun _ : A => 0) l) by reflexivity.
    unfold Rdiv. ring. }
  unfold std, var. rewrite Hmean, map_map. unfold mean.
  rewrite (sum_map_zero (fun _ : A => Rsqr (0 - 0)) l).
  - unfold Rdiv. rewrite Rmult_0_l. apply sqrt_0.
  - intros a _. unfold Rsqr. ring.
Qed.

Lemma std_scale_constant_column (col : list R) :
  var col = 0 -> std (scale_column (column_parameters col) col) = 0.
Proof.
  intros Hvar. rewrite (scale_constant_column col Hvar). apply std_zeros.
Qed.

Lemma scale_with_own_parameters (X : Matrix) :
  map (fun pc => scale_column (fst pc) (snd pc)) (combine (map column_parameters X) X)
  = map (fun col => scale_column (column_parameters col) col) X.
Proof.
  induction X as [| col X IH]; simpl; [reflexivity | rewrite IH; reflexivity].
Qed.

Lemma scale_with_train_parameters (X X' : Matrix) :
  map (fun pc => scale_column (fst pc) (snd pc)) (combine (map column_parameters X) X')
  = map (fun pc => scale_column (column_parameters (fst pc)) (snd pc)) (combine X X').
Proof.
  revert X'; induction X as [| col X IH]; intros [| col' X']; simpl;
    try reflexivity. rewrite IH. reflexivity.
Qed.

(** C6, amended.  On a training matrix with at least one row and one
    column, cell 43 fits the scaler once, on the training matrix only;
    its parameters -- per column the mean and the standard deviation,
    with 1 in place of a standard deviation of 0 -- do not depend on the
    test matrix, and a test matrix of the same width is transformed with
    them, column by column, without a second fit.  Every scaled training
    column has mean 0; its standard deviation is 1 when the column is
    not constant, and 0 when it is: a constant column is only shifted
    by its mean (real arithmetic, of which the floats are an
    approximation). *)
Theorem scaler_fit_on_train_only (x_train x_test : Matrix) (w : Globals) :
  has_rows_and_columns x_train ->
  scaler (snd (cell_43 x_train x_test w))
  = Some (mkScaler (Some (map column_parameters x_train)) [x_train]) /\
  x_train_scaled (snd (cell_43 x_train x_test w))
  = Some (map (fun col => scale_column (column_parameters col) col) x_train) /\
  (has_rows_and_columns x_test ->
   length x_test = length x_train ->
   fst (cell_43 x_train x_test w) = inr tt /\
   x_test_scaled (snd (cell_43 x_train x_test w))
   = Some (map (fun pc => scale_column (column_parameters (fst pc)) (snd pc))
               (combine x_train x_test))) /\
  (forall col, In col x_train ->
     mean_ (column_parameters col) = mean col /\
     mean (scale_column (column_parameters col) col) = 0 /\
     (0 < var col ->
      scale_ (column_parameters col) = std col /\
      std (scale_column (column_parameters col) col) = 1) /\
     (var col = 0 ->
      scale_ (column_parameters col) = 1 /\
      std (scale_column (column_parameters col) col) = 0 /\
      forall t, scale_column (column_parameters col) t
                = map (fun x => x - mean col) t)).
Proof.
  intros _.
  assert (Htrain : transform (fit new_scaler x_train) x_train
                   = inr (map (fun col => scale_column (column_parameters col) col)
                              x_train)).
  { unfold transform, fit; simpl. rewrite length_map, Nat.eqb_refl.
    rewrite scale_with_own_parameters. reflexivity. }
  assert (Hcols : forall col, In col x_train ->
     mean_ (column_parameters col) = mean col /\
     mean (scale_column (column_parameters col) col) = 0 /\
     (0 < var col ->
      scale_ (column_parameters col) = std col /\
      std (scale_column (column_parameters col) col) = 1) /\
     (var col = 0 ->
      scale_ (column_parameters col) = 1 /\
      std (scale_column (column_parameters col) col) = 0 /\
      forall t, scale_column (column_parameters col) t
                = map (fun x => x - mean col) t)).
  { intros col _. split; [reflexivity |]. split; [apply mean_scale_column |]. split.
    - intros Hv. split; [apply scale_of_varying_column | apply std_scale_column];
        exact Hv.
    - intros Hv. split; [apply scale_of_constant_column; exact Hv |].
      split; [apply std_scale_constant_column; exact Hv |].
      intros t. apply shift_by_constant_column. exact Hv. }
  unfold cell_43, fit_transform, Py.bind, Py.modify, Py.call, Py.get.
  rewrite Htrain. cbn [scaler fst snd].
  destruct (transform (fit new_scaler x_train) x_test) as [e | Xt] eqn:Htest;
    cbn [scaler x_train_scaled x_test_scaled fst snd].
  - split; [reflexivity | split; [reflexivity | split; [| exact Hcols]]].
    intros _ Hlen. exfalso. unfold transform, fit in Htest; simpl in Htest.
    rewrite length_map, <- Hlen, Nat.eqb_refl in Htest. discriminate.
  - split; [reflexivity | split; [reflexivity | split; [| exact Hcols]]].
    intros _ Hlen. split; [reflexivity |].
    unfold transform, fit in Htest; simpl in Htest.
    rewrite length_map, <- Hlen, Nat.eqb_refl in Htest.
    rewrite scale_with_train_parameters in Htest. inversion Htest; reflexivity.
Qed.

(** A training matrix with one varying and one constant column, and a
    test matrix with a single row. *)
Lemma var_0_2 : var [0; 2] = 1.
Proof. unfold var, mean; simpl. unfold Rsqr. field. Qed.

Lemma var_5_5 : var [5; 5] = 0.
Proof. unfold var, mean; simpl. unfold Rsqr. field. Qed.

Lemma mean_5_5 : mean [5; 5] = 5.
Proof. unfold mean; simpl. field. Qed.

Lemma scaler_fit_on_train_only_witness :
  scaler (snd (cell_43 [[0; 2]; [5; 5]] [[1]; [7]] unbound))
  = Some (mkScaler (Some (map column_parameters [[0; 2]; [5; 5]])) [[[0; 2]; [5; 5]]]) /\
  fst (cell_43 [[0; 2]; [5; 5]] [[1]; [7]] unbound) = inr tt /\
  x_test_scaled (snd (cell_43 [[0; 2]; [5; 5]] [[1]; [7]] unbound))
  = Some (map (fun pc => scale_column (column_parameters (fst pc)) (snd pc))
              (combine [[0; 2]; [5; 5]] [[1]; [7]])) /\
  mean (scale_column (column_parameters [0; 2]) [0; 2]) = 0 /\
  std (scale_column (column_parameters [0; 2]) [0; 2]) = 1 /\
  scale_ (column_parameters [5; 5]) = 1 /\
  std (scale_column (column_parameters [5; 5]) [5; 5]) = 0 /\
  scale_column (column_parameters [5; 5]) [7] = [2].
Proof.
  assert (Htrain : has_rows_and_columns [[0; 2]; [5; 5]]).
  { split; [discriminate |]. intros col [<- | [<- | []]]; discriminate. }
  assert (Htest : has_rows_and_columns [[1]; [7]]).
  { split; [discriminate |]. intros col [<- | [<- | []]]; discriminate. }
  destruct (scaler_fit_on_train_only [[0; 2]; [5; 5]] [[1]; [7]] unbound Htrain)
    as (Hsc & _ & Htr & Hcols).
  destruct (Htr Htest eq_refl) as [Hret Hts].
  destruct (Hcols [0; 2] (or_introl eq_refl)) as (_ & Hm & Hs1 & _).
  destruct (Hcols [5; 5] (or_intror (or_introl eq_refl))) as (_ & _ & _ & Hs0).
  destruct (Hs0 var_5_5) as (Hscale & Hstd0 & Hshift).
  repeat split; try assumption.
  - apply Hs1. rewrite var_0_2. lra.
  - rewrite (Hshift [7]). simpl. rewrite mean_5_5. f_equal. lra.
Defined.

(** C6, as stated, fails on the code: a training column that is
    constant is scaled to zeros, and its standard deviation is then 0,
    not 1. *)
Lemma constant_column_scaled_std_zero :
  x_train_scaled (snd (cell_43 [[5; 5]] [[1]] unbound))
  = Some [scale_column (column_parameters [5; 5]) [5; 5]] /\
  scale_column (column_parameters [5; 5]) [5; 5] = [0; 0] /\
  std (scale_column (column_parameters [5; 5]) [5; 5]) = 0 /\
  Rabs (std (scale_column (column_parameters [5; 5]) [5; 5]) - 1) = 1.
Proof.
  assert (Hstd : std (scale_column (column_parameters [5; 5]) [5; 5]) = 0)
    by (apply std_scale_constant_column, var_5_5).
  split; [| split; [| split]].
  - unfold cell_43, fit_transform, Py.bind, Py.modify, Py.call, Py.get.
    reflexivity.
  - apply (scale_constant_column [5; 5] var_5_5).
  - exact Hstd.
  - rewrite Hstd. replace (0 - 1) with (- (1)) by ring.
    rewrite Rabs_Ropp. apply Rabs_R1.
Qed.
End ScalingFacts.


(** ** The sweep on the stand-in forest *)

Module SweepExamples.
Import Sweep Toy Metrics.
Local Open Scope Z_scope.

Abbreviation toy_cell_57 :=
  (cell_57 (T := ToyForest) (S := RealScorer) x_train y_train x_test y_test).

Lemma toy_cell_ok tree depth g :
  1 <= tree -> 1 <= depth ->
  cell_ok (T := ToyForest) (S := RealScorer) x_train y_train x_test y_test tree depth g.
Proof.
  intros Ht Hd. unfold cell_ok; simpl. unfold toy_fit; simpl.
  destruct (Z.ltb_spec tree 1); [lia |]. destruct (Z.ltb_spec depth 1); [lia |].
  simpl. do 5 eexists. repeat split; reflexivity.
Qed.


Lemma toy_predict_checks (m : Estimator) (X : list (list R)) (y : list R) (g : Z)
      (m1 : Estimator) (g1 : Z) (X' : list (list R)) :
  fit m X y g = (inr m1, g1) -> n_features X <> n_features X' ->
  predict m1 X' = inl ValueError.
Proof.
  simpl. unfold toy_fit, toy_predict.
  destruct ((n_estimators m <? 1) || (max_depth m <? 1)); [discriminate |].
  intros Hfit Hneq; inversion Hfit; subst; simpl.
  destruct (Nat.eqb_spec (n_features X) (n_features X')); [contradiction | reflexivity].
Qed.

Lemma sweep_row_major_witness :
  exists w' df,
    toy_cell_57 [50; 100] [1; 3] (fresh 7) = (inr tt, w') /\
    results_df w' = Some df /\
    length df = 4%nat /\
    map (@grid_cell R) df = [(50, 1); (50, 3); (100, 1); (100, 3)].
Proof.
  apply (SweepFacts.sweep_row_major (T := ToyForest) (S := RealScorer)
           x_train y_train x_test y_test [50; 100] [1; 3]).
  intros tree depth g Ht Hd. apply toy_cell_ok.
  - simpl in Ht. lia.
  - simpl in Hd. lia.
Defined.
(** Runs on concrete inputs are evaluated with the scores left as
    expressions. *)
Ltac run := cbv -[mse r2 IZR]; reflexivity.

Lemma result_lists_in_step_witness :
  (exists w',
      (init_lists ;; loops x_train y_train x_test y_test [50] [1; 3] ;;
       Py.for_ [1] (fun depth' => body x_train y_train x_test y_test 100 depth') ;;
       body x_train y_train x_test y_test 100 3)%py (fresh 7) = (inr tt, w') /\
      length (tree_count w') = 4%nat /\
      length (tree_depth w') = length (tree_count w') /\
      length (tuned_rf_MSE w') = length (tree_count w') /\
      length (tuned_rf_R2 w') = length (tree_count w')) /\
  (exists w1 df,
      (init_lists ;; loops x_train y_train x_test y_test [50; 100] [1; 3])%py (fresh 7)
        = (inr tt, w1) /\
      pd_DataFrame (tree_count w1) (tree_depth w1) (tuned_rf_MSE w1) (tuned_rf_R2 w1)
        = inr df /\
      length df = 4%nat).
Proof.
  split.
  - eexists. split; [run |].
    match goal with
    | |- length (tree_count ?W) = _ /\ _ =>
        apply (proj1 (SweepFacts.result_lists_in_step
                        (T := ToyForest) (S := RealScorer)
                        x_train y_train x_test y_test [50; 100] [1; 3] (fresh 7))
                 [50] 100 [] [1] 3 [] W eq_refl eq_refl)
    end.
    run.
  - assert (Hrun : (init_lists ;;
                    loops x_train y_train x_test y_test [50; 100] [1; 3])%py (fresh 7)
                   = (inr tt, snd ((init_lists ;;
                                    loops x_train y_train x_test y_test
                                          [50; 100] [1; 3])%py (fresh 7)))) by run.
    destruct (proj2 (SweepFacts.result_lists_in_step
                       (T := ToyForest) (S := RealScorer)
                       x_train y_train x_test y_test [50; 100] [1; 3] (fresh 7))
                _ Hrun) as (_ & _ & _ & df & Hdf & Hlen).
    eexists; exists df. split; [exact Hrun | split; [exact Hdf | exact Hlen]].
Defined.

Lemma sweep_aborts_on_cell_failure_witness :
  exists w',
    toy_cell_57 [50; 100] [1; 0] (fresh 7) = (inl InvalidParameterError, w') /\
    results_df w' = results_df (fresh 7) /\
    (trace w' = trace after_50_1 ++ [EvFit 50 0 false] \/
     trace w' = (trace after_50_1 ++ [EvFit 50 0 true]) ++ [EvPredict 50 0 false]) /\
    length (tuned_rf_MSE w') = length [(50, 1)] /\
    length (tuned_rf_R2 w') = length [(50, 1)] /\
    (length [(50, 1)] < length [50; 100] * length [1; 0])%nat.
Proof.
  assert (Hpre : (init_lists ;; run_cells x_train y_train x_test y_test [(50, 1)])%py
                   (fresh 7) = (inr tt, after_50_1)) by run.
  assert (Hfail : fit_or_predict_fails (T := ToyForest) x_train y_train x_test
                    50 0 (np_random after_50_1) InvalidParameterError)
    by (left; eexists; run).
  exact (SweepFacts.sweep_aborts_on_cell_failure (T := ToyForest) (S := RealScorer)
           x_train y_train x_test y_test [50; 100] [1; 0]
           [(50, 1)] 50 0 [(100, 1); (100, 0)] (fresh 7) after_50_1
           InvalidParameterError eq_refl Hpre Hfail).
Defined.



Lemma schema_mismatch_surfaces_at_predict_witness :
  (exists w',
      cell_57 (T := ToyForest) (S := RealScorer) x_train y_train x_test_4 y_test
              [50; 100] [] (fresh 7) = (inr tt, w') /\
      results_df w' = Some [] /\ trace w' = trace (fresh 7)) /\
  (exists w',
      cell_57 (T := ToyForest) (S := RealScorer) x_train y_train x_test_4 y_test
              [0; 50] [1] (fresh 7) = (inl InvalidParameterError, w') /\
      trace w' = trace (fresh 7) ++ [EvFit 0 1 false] /\
      models_fit (trace w') = models_fit (trace (fresh 7)) /\
      results_df w' = results_df (fresh 7)) /\
  (exists w',
      cell_57 (T := ToyForest) (S := RealScorer) x_train y_train x_test_4 y_test
              [50; 100] [1; 3] (fresh 7) = (inl ValueError, w') /\
      trace w' = (trace (fresh 7) ++ [EvFit 50 1 true]) ++ [EvPredict 50 1 false] /\
      models_fit (trace w') = (models_fit (trace (fresh 7)) + 1)%nat /\
      results_df w' = results_df (fresh 7)).
Proof.
  assert (Hneq : n_features x_train <> n_features x_test_4) by (cbv; lia).
  split; [| split].
  - exact (proj1 (SweepFacts.schema_mismatch_surfaces_at_predict
                    (T := ToyForest) (S := RealScorer)
                    x_train y_train x_test_4 y_test n_features
                    [50; 100] [] (fresh 7) toy_predict_checks Hneq) eq_refl).
  - exact (proj1 (proj2 (SweepFacts.schema_mismatch_surfaces_at_predict
                           (T := ToyForest) (S := RealScorer)
                           x_train y_train x_test_4 y_test n_features
                           [0; 50] [1] (fresh 7) toy_predict_checks Hneq)
                        0 1 [(50, 1)] eq_refl)
                 InvalidParameterError 7 eq_refl).
  - exact (proj2 (proj2 (SweepFacts.schema_mismatch_surfaces_at_predict
                           (T := ToyForest) (S := RealScorer)
                           x_train y_train x_test_4 y_test n_features
                           [50; 100] [1; 3] (fresh 7) toy_predict_checks Hneq)
                        50 1 [(50, 3); (100, 1); (100, 3)] eq_refl)
                 (mkEstimator 50 1 (Some 3%nat) 8) 57 eq_refl).
Defined.

(** C3, as stated, fails on the code: with three feature columns in the
    training matrix and four in the test matrix, the forest of the first
    grid cell is fit before the mismatch is noticed. *)
Lemma schema_mismatch_after_a_fit :
  n_features x_train = 3%nat /\ n_features x_test_4 = 4%nat /\
  exists w',
    cell_57 (T := ToyForest) (S := RealScorer) x_train y_train x_test_4 y_test
            [50] [1] (fresh 7) = (inl ValueError, w') /\
    trace w' = [EvFit 50 1 true; EvPredict 50 1 false] /\
    models_fit (trace w') = 1%nat.
Proof.
  split; [reflexivity | split; [reflexivity |]].
  eexists; split; [run |]; repeat split; reflexivity.
Qed.

Lemma sweep_deterministic_witness :
  fst (toy_cell_57 [50; 100] [1; 3] (snd (reseed 123 (fresh 7))))
  = fst (toy_cell_57 [50; 100] [1; 3]
           (snd (reseed 123 (snd (toy_cell_57 [50; 100] [1; 3]
                                    (snd (reseed 123 (fresh 7)))))))) /\
  tuned_rf_MSE (snd (toy_cell_57 [50; 100] [1; 3] (snd (reseed 123 (fresh 7)))))
  = tuned_rf_MSE
      (snd (toy_cell_57 [50; 100] [1; 3]
              (snd (reseed 123 (snd (toy_cell_57 [50; 100] [1; 3]
                                       (snd (reseed 123 (fresh 7))))))))) /\
  tuned_rf_R2 (snd (toy_cell_57 [50; 100] [1; 3] (snd (reseed 123 (fresh 7)))))
  = tuned_rf_R2
      (snd (toy_cell_57 [50; 100] [1; 3]
              (snd (reseed 123 (snd (toy_cell_57 [50; 100] [1; 3]
                                       (snd (reseed 123 (fresh 7))))))))).
Proof.
  destruct (SweepFacts.sweep_deterministic (T := ToyForest) (S := RealScorer)
              x_train y_train x_test y_test [50; 100] [1; 3]
              (snd (reseed 123 (fresh 7)))
              (snd (reseed 123 (snd (toy_cell_57 [50; 100] [1; 3]
                                       (snd (reseed 123 (fresh 7)))))))
              eq_refl) as (Hout & _ & _ & Hm & Hr & _).
  split; [exact Hout | split; [exact Hm | exact Hr]].
Defined.

Ltac run_sk := cbv -[mse SklearnMetrics.r2_value IZR]; reflexivity.

Lemma scores_bounded_witness :
  (exists w' df,
      cell_57 (T := ToyForest) (S := SklearnMetrics.SklearnScorer)
              x_train y_train x_test y_test [50; 100] [1; 3] (ToyOneRow.fresh 7)
      = (inr tt, w') /\
      results_df w' = Some df /\
      length df = 4%nat /\
      Forall (fun r =>
                (exists m, MSE r = SklearnMetrics.Finite m /\ (0 <= m)%R) /\
                (exists x, R2 r = SklearnMetrics.Finite x /\ (x <= 1)%R)) df) /\
  (exists w' df,
      cell_57 (T := ToyForest) (S := SklearnMetrics.SklearnScorer)
              x_train y_train ToyOneRow.x_test_1 ToyOneRow.y_test_1
              [50; 100] [1; 3] (ToyOneRow.fresh 7)
      = (inr tt, w') /\
      results_df w' = Some df /\
      length df = 4%nat /\
      Forall (fun r =>
                (exists m, MSE r = SklearnMetrics.Finite m /\ (0 <= m)%R) /\
                R2 r = SklearnMetrics.NaN) df).
Proof.
  split.
  - do 2 eexists. split; [run_sk |]. split; [reflexivity |]. split; [reflexivity |].
    match goal with
    | |- Forall _ ?DF =>
        assert (Hall := MetricsFacts.scores_bounded (T := ToyForest)
                          x_train y_train x_test y_test [50; 100] [1; 3]
                          (ToyOneRow.fresh 7)
                          (snd (cell_57 (T := ToyForest)
                                        (S := SklearnMetrics.SklearnScorer)
                                        x_train y_train x_test y_test
                                        [50; 100] [1; 3] (ToyOneRow.fresh 7)))
                          DF)
    end.
    eapply Forall_impl; [| apply Hall; run_sk].
    intros r (Hm & H2 & _). split; [exact Hm | apply H2; simpl; lia].
  - do 2 eexists. split; [run_sk |]. split; [reflexivity |]. split; [reflexivity |].
    match goal with
    | |- Forall _ ?DF =>
        assert (Hall := MetricsFacts.scores_bounded (T := ToyForest)
                          x_train y_train ToyOneRow.x_test_1 ToyOneRow.y_test_1
                          [50; 100] [1; 3] (ToyOneRow.fresh 7)
                          (snd (cell_57 (T := ToyForest)
                                        (S := SklearnMetrics.SklearnScorer)
                                        x_train y_train
                                        ToyOneRow.x_test_1 ToyOneRow.y_test_1
                                        [50; 100] [1; 3] (ToyOneRow.fresh 7)))
                          DF)
    end.
    eapply Forall_impl; [| apply Hall; run_sk].
    intros r (Hm & _ & H1). split; [exact Hm | apply H1; reflexivity].
Defined.

(** C7, as stated, fails on the code: on a test partition of one row the
    sweep returns a table whose [R2] is [nan], not a number of at most
    1. *)
Lemma one_row_test_partition_r2_nan :
  length ToyOneRow.y_test_1 = 1%nat /\
  exists w' r,
    cell_57 (T := ToyForest) (S := SklearnMetrics.SklearnScorer)
            x_train y_train ToyOneRow.x_test_1 ToyOneRow.y_test_1
            [50] [1] (ToyOneRow.fresh 7)
    = (inr tt, w') /\
    results_df w' = Some [r] /\
    R2 r = SklearnMetrics.NaN.
Proof.
  split; [reflexivity |].
  do 2 eexists. split; [run_sk |]. split; reflexivity.
Qed.

(** The notebook's own grid: 5 tree counts times 6 depths, 30 rows. *)
Example notebook_grid_30_rows :
  exists w' df,
    toy_cell_57 trees depths (fresh 7) = (inr tt, w') /\
    results_df w' = Some df /\
    length df = 30%nat /\
    map (@grid_cell R) df = list_prod trees depths.
Proof.
  do 2 eexists. split; [run |]. repeat split; reflexivity.
Qed.

(** Cell 57 passes no [random_state] and the notebook never seeds numpy:
    run twice in a row, the second run starts from the generator state
    the first one left, and a forest that uses its randomness scores
    differently. *)
Example unseeded_rerun_differs :
  tuned_rf_MSE (snd (toy_cell_57 [50] [1] (fresh 7)))
  <> tuned_rf_MSE (snd (toy_cell_57 [50] [1] (snd (toy_cell_57 [50] [1] (fresh 7))))).
Proof.
  cbv -[mse r2 IZR]. intros H. injection H as H.
  unfold mse, Stats.mean, squared_errors in H. simpl in H. unfold Rsqr in H. lra.
Qed.
End SweepExamples.



(** ** Cells 21 to 31 on whole columns *)

Module RdkitColumnFacts.
Import Rdkit RdkitColumns.

(** [apply] returns exactly when the function returns on every element,
    with the results in the order of the elements. *)
Lemma Series_apply_Forall2 {A B : Type} (f : A -> result B)
      (col : list A) (ys : list B) :
  Series_apply f col = inr ys <-> Forall2 (fun x y => f x = inr y) col ys.
Proof.
  revert ys; induction col as [| x col IH]; intros ys; simpl.
  - split.
    + intros H; inversion H; constructor.
    + intros H; inversion H; reflexivity.
  - split.
    + destruct (f x) as [e | y] eqn:Hx; [discriminate |].
      destruct (Series_apply f col) as [e | ys'] eqn:Hcol; [discriminate |].
      intros H; inversion H; subst ys. constructor; [exact Hx |].
      apply IH. reflexivity.
    + intros H; inversion H as [| x' y col' ys' Hx Hrest]; subst.
      rewrite Hx. rewrite (proj2 (IH ys') Hrest). reflexivity.
Qed.

Lemma Series_apply_length {A B : Type} (f : A -> result B)
      (col : list A) (ys : list B) :
  Series_apply f col = inr ys -> length ys = length col.
Proof.
  intros H. apply Series_apply_Forall2 in H. symmetry. exact (Forall2_length H).
Qed.

Lemma aromatic_ratio_bounds (m : Mol) :
  (1 <= GetNumAtoms m)%nat ->
  (0 <= INR (length (GetAromaticAtoms m)) / INR (GetNumAtoms m) <= 1)%R.
Proof.
  intros Hn.
  assert (Hpos : (0 < INR (GetNumAtoms m))%R) by (apply lt_0_INR; lia).
  assert (Hle : (INR (length (GetAromaticAtoms m)) <= INR (GetNumAtoms m))%R)
    by (apply le_INR, RdkitFacts.filter_length_le).
  assert (H0 : (0 <= INR (length (GetAromaticAtoms m)))%R) by apply pos_INR.
  split.
  - apply Rmult_le_pos; [exact H0 |]. left; apply Rinv_0_lt_compat; exact Hpos.
  - apply Rmult_le_reg_r with (r := INR (GetNumAtoms m)); [exact Hpos |].
    unfold Rdiv. rewrite Rmult_assoc, Rinv_l by lra. lra.
Qed.

Lemma aromatic_calc_returns_iff (pm : PyMol) :
  (exists q, aromatic_calc pm = inr q) <-> usable pm.
Proof.
  split.
  - intros [q Hq]. destruct pm as [m |]; [| discriminate].
    exists m. split; [reflexivity |].
    unfold aromatic_calc, truediv in Hq.
    destruct (Nat.eqb_spec (GetNumAtoms m) 0); [discriminate | lia].
  - intros (m & -> & Hm). eexists. apply RdkitFacts.aromatic_calc_returns. exact Hm.
Qed.

(** X1.  Cell 31 returns exactly when every entry of the [mol] column is
    a molecule with at least one atom; the new column then has one
    entry per row, each in the closed interval [0, 1]. *)
Theorem cell_31_returns_iff (mol : list PyMol) :
  ((exists ratios, cell_31 mol = inr ratios) <-> Forall usable mol) /\
  (forall ratios,
      cell_31 mol = inr ratios ->
      length ratios = length mol /\ Forall (fun q => (0 <= q <= 1)%R) ratios).
Proof.
  unfold cell_31. split; [split |].
  - intros [ratios H]. apply Series_apply_Forall2 in H.
    induction H as [| pm q col qs Hq _ IH]; constructor; [| exact IH].
    apply aromatic_calc_returns_iff. exists q; exact Hq.
  - intros Hall. induction Hall as [| pm col Hpm _ [qs IH]].
    + exists []. reflexivity.
    + apply aromatic_calc_returns_iff in Hpm as [q Hq].
      exists (q :: qs). simpl. rewrite Hq, IH. reflexivity.
  - intros ratios H. split; [exact (Series_apply_length _ _ _ H) |].
    apply Series_apply_Forall2 in H.
    induction H as [| pm q col qs Hq _ IH]; constructor; [| exact IH].
    destruct pm as [m |]; [| discriminate].
    assert (Hm : (1 <= GetNumAtoms m)%nat).
    { unfold aromatic_calc, truediv in Hq.
      destruct (Nat.eqb_spec (GetNumAtoms m) 0); [discriminate | lia]. }
    rewrite (RdkitFacts.aromatic_calc_returns m Hm) in Hq.
    inversion Hq; subst q. apply aromatic_ratio_bounds. exact Hm.
Qed.

Lemma cell_31_returns_iff_witness :
  (exists ratios, cell_31 [Some methane; Some toluene] = inr ratios) /\
  Forall usable [Some methane; Some toluene] /\
  (exists ratios,
      cell_31 [Some methane; Some toluene] = inr ratios /\
      length ratios = 2%nat /\ Forall (fun q => (0 <= q <= 1)%R) ratios).
Proof.
  assert (Hall : Forall usable [Some methane; Some toluene]).
  { repeat constructor.
    - exists methane. split; [reflexivity | cbv; lia].
    - exists toluene. split; [reflexivity | cbv; lia]. }
  destruct (cell_31_returns_iff [Some methane; Some toluene]) as [Hiff Hcol].
  destruct (proj2 Hiff Hall) as [ratios Hr].
  split; [exists ratios; exact Hr | split; [exact Hall |]].
  exists ratios. split; [exact Hr | exact (Hcol ratios Hr)].
Defined.

(** X2.  When the first entry of the [mol] column on which
    [aromatic_calc] does not return is a molecule without atoms, cell 31
    ends with [ZeroDivisionError], whatever follows in the column. *)
Theorem cell_31_atomless_molecule (pre post : list PyMol) (m : Mol) :
  Forall usable pre ->
  GetNumAtoms m = 0%nat ->
  cell_31 (pre ++ Some m :: post) = inl ZeroDivisionError.
Proof.
  intros Hpre Hm. unfold cell_31. apply RdkitFacts.Series_apply_raises.
  - intros pm Hin. rewrite Forall_forall in Hpre.
    apply aromatic_calc_returns_iff. apply Hpre. exact Hin.
  - unfold aromatic_calc, truediv. rewrite Hm. reflexivity.
Qed.

Lemma cell_31_atomless_molecule_witness :
  cell_31 ([Some benzene] ++ Some no_atoms :: [None]) = inl ZeroDivisionError.
Proof.
  apply (cell_31_atomless_molecule [Some benzene] [None] no_atoms).
  - repeat constructor. exists benzene. split; [reflexivity | cbv; lia].
  - reflexivity.
Defined.

Lemma filter_all_iff {A : Type} (p : A -> bool) (l : list A) :
  length (filter p l) = length l <-> forallb p l = true.
Proof.
  induction l as [| a l IH]; simpl; [tauto |].
  pose proof (RdkitFacts.filter_length_le p l) as Hle.
  destruct (p a); simpl.
  - rewrite <- IH. split; intros H; lia.
  - split; [intros H; lia | discriminate].
Qed.

(** X3.  On a molecule with at least one atom, [aromatic_calc] returns
    0 exactly when no atom is aromatic and 1 exactly when every atom
    is. *)
Theorem aromatic_calc_extremes (m : Mol) :
  (1 <= GetNumAtoms m)%nat ->
  (aromatic_calc (Some m) = inr 0%R <-> GetAromaticAtoms m = []) /\
  (aromatic_calc (Some m) = inr 1%R <-> all_aromatic m = true).
Proof.
  intros Hn. rewrite (RdkitFacts.aromatic_calc_returns m Hn).
  assert (Hpos : (0 < INR (GetNumAtoms m))%R) by (apply lt_0_INR; lia).
  split; split.
  - intros H; inversion H as [Hq]. apply length_zero_iff_nil. apply INR_eq. simpl.
    apply Rmult_eq_reg_r with (r := (/ INR (GetNumAtoms m))%R).
    + rewrite Rmult_0_l. exact Hq.
    + apply Rinv_neq_0_compat. lra.
  - intros ->. simpl. unfold Rdiv. rewrite Rmult_0_l. reflexivity.
  - intros H; inversion H as [Hq]. unfold all_aromatic. apply filter_all_iff.
    fold (GetAromaticAtoms m). fold (GetNumAtoms m). apply INR_eq.
    apply Rmult_eq_reg_r with (r := (/ INR (GetNumAtoms m))%R).
    + rewrite Rinv_r by lra. exact Hq.
    + apply Rinv_neq_0_compat. lra.
  - intros Hall. unfold all_aromatic in Hall. apply filter_all_iff in Hall.
    fold (GetAromaticAtoms m) in Hall. fold (GetNumAtoms m) in Hall.
    rewrite Hall. unfold Rdiv. rewrite Rinv_r by lra. reflexivity.
Qed.

Lemma aromatic_calc_extremes_witness :
  (aromatic_calc (Some benzene) = inr 0%R <-> GetAromaticAtoms benzene = []) /\
  (aromatic_calc (Some benzene) = inr 1%R <-> all_aromatic benzene = true).
Proof.
  apply (aromatic_calc_extremes benzene). cbv. lia.
Defined.

Section Cells.
Variable MolFromSmiles : string -> PyMol.
Variables MolWt CalcNumRotatableBonds MolLogP : PyMol -> result R.

(** X4.  When cells 21 to 31 complete, each of the four descriptor
    columns has exactly one entry per identifier. *)
Theorem descriptor_columns_one_entry_per_row (smiles : list string)
        (d : Descriptors) :
  cells_21_31 MolFromSmiles MolWt CalcNumRotatableBonds MolLogP smiles = inr d ->
  length (mol_weight d) = length smiles /\
  length (rot_bonds d) = length smiles /\
  length (clogP d) = length smiles /\
  length (aromatic_ratio d) = length smiles.
Proof.
  unfold cells_21_31, cell_21. rewrite RdkitFacts.Series_apply_total.
  destruct (Series_apply MolWt _) as [e | wt] eqn:Hwt; [discriminate |].
  destruct (Series_apply CalcNumRotatableBonds _) as [e | rb] eqn:Hrb; [discriminate |].
  destruct (Series_apply MolLogP _) as [e | lp] eqn:Hlp; [discriminate |].
  destruct (cell_31 _) as [e | ar] eqn:Har; [discriminate |].
  intros H; inversion H; subst d; simpl.
  unfold cell_31 in Har.
  rewrite (Series_apply_length _ _ _ Hwt), (Series_apply_length _ _ _ Hrb),
    (Series_apply_length _ _ _ Hlp), (Series_apply_length _ _ _ Har), length_map.
  repeat split; reflexivity.
Qed.

(** X5.  When the library descriptor of cell 24 rejects a molecule that
    did not parse, the run of cells 21 to 31 stops there with the
    library's exception: [aromatic_calc] is not reached, and its
    [AttributeError] is not what the user sees. *)
Theorem parse_failure_stops_at_cell_24 (pre post : list string) (s : string)
        (e : exn) :
  MolFromSmiles s = None ->
  MolWt None = inl e ->
  (forall s', In s' pre -> exists wt, MolWt (MolFromSmiles s') = inr wt) ->
  cells_21_31 MolFromSmiles MolWt CalcNumRotatableBonds MolLogP (pre ++ s :: post)
  = inl e.
Proof.
  intros Hs He Hpre. unfold cells_21_31, cell_21.
  rewrite RdkitFacts.Series_apply_total, map_app. simpl.
  rewrite (RdkitFacts.Series_apply_raises MolWt (map MolFromSmiles pre)
             (map MolFromSmiles post) (MolFromSmiles s) e); [reflexivity | |].
  - intros pm Hin. apply in_map_iff in Hin as (s' & <- & Hs'). apply Hpre. exact Hs'.
  - rewrite Hs. exact He.
Qed.
End Cells.

Lemma descriptor_columns_one_entry_per_row_witness :
  exists d,
    cells_21_31 toy_MolFromSmiles toy_descriptor toy_descriptor toy_descriptor
                ["C"; "Cc1ccccc1"]%string = inr d /\
    length (mol_weight d) = 2%nat /\ length (rot_bonds d) = 2%nat /\
    length (clogP d) = 2%nat /\ length (aromatic_ratio d) = 2%nat.
Proof.
  eexists. split; [cbv -[Rdiv INR]; reflexivity |].
  match goal with
  | |- length (mol_weight ?D) = _ /\ _ =>
      apply (descriptor_columns_one_entry_per_row
               toy_MolFromSmiles toy_descriptor toy_descriptor toy_descriptor
               ["C"; "Cc1ccccc1"]%string D)
  end.
  cbv -[Rdiv INR]; reflexivity.
Defined.

Lemma parse_failure_stops_at_cell_24_witness :
  cells_21_31 toy_MolFromSmiles toy_descriptor toy_descriptor toy_descriptor
              (["C"]%string ++ "C1CC"%string :: ["c1ccccc1"]%string)
  = inl ArgumentError.
Proof.
  apply (parse_failure_stops_at_cell_24
           toy_MolFromSmiles toy_descriptor toy_descriptor toy_descriptor
           ["C"%string] ["c1ccccc1"%string] "C1CC"%string ArgumentError).
  - reflexivity.
  - reflexivity.
  - intros s' [<- | []]. eexists. reflexivity.
Defined.
End RdkitColumnFacts.



(** ** Cell 57: rows, calls, edge cases *)

Module SweepTableFacts.
Import Sweep SweepSpec.

Lemma combine_snoc {A B : Type} (l1 : list A) (l2 : list B) (a : A) (b : B) :
  length l1 = length l2 ->
  combine (l1 ++ [a]) (l2 ++ [b]) = combine l1 l2 ++ [(a, b)].
Proof.
  revert l2; induction l1 as [| x l1 IH]; intros [| y l2] Hlen; simpl in *;
    try discriminate; [reflexivity |].
  rewrite IH by lia. reflexivity.
Qed.

Lemma list_prod_nil_r {A B : Type} (l : list A) : list_prod l (@nil B) = [].
Proof. induction l as [| a l IH]; simpl; [reflexivity | exact IH]. Qed.

Lemma models_fit_cell_events (cells : list (Z * Z)) :
  models_fit (flat_map cell_events cells) = length cells.
Proof.
  induction cells as [| c cells IH]; [reflexivity |].
  change (flat_map cell_events (c :: cells))
    with (cell_events c ++ flat_map cell_events cells).
  rewrite SweepFacts.models_fit_app, IH. reflexivity.
Qed.

Section Cell57.
Context {Matrix Vector Estimator Rng Score : Type}.
Context {T : Trainer Matrix Vector Estimator Rng}.
Context {S : Scorer Vector Score}.
Variables (x_train_scaled : Matrix) (y_train : Vector).
Variables (x_test_scaled : Matrix) (y_test : Vector).

Abbreviation Globals := (@Globals Vector Estimator Rng Score).
Abbreviation body := (body x_train_scaled y_train x_test_scaled y_test).
Abbreviation body_at := (body_at x_train_scaled y_train x_test_scaled y_test).
Abbreviation run_cells := (run_cells x_train_scaled y_train x_test_scaled y_test).
Abbreviation cell_57 := (cell_57 x_train_scaled y_train x_test_scaled y_test).
Abbreviation row_of_its_cell :=
  (row_of_its_cell x_train_scaled y_train x_test_scaled y_test).
Abbreviation aligned := (aligned x_train_scaled y_train x_test_scaled y_test).

Implicit Types (w : Globals) (tree depth : Z).

Ltac run_body :=
  unfold Sweep.body, call_fit, call_predict, append_tree_count,
    append_tree_depth, append_tuned_rf_MSE, append_tuned_rf_R2,
    Py.bind, Py.modify, Py.call, Py.get; simpl.

(** The three stages of the cell, for a run that ends normally. *)
Lemma cell_57_returns_stages trees depths w w' :
  cell_57 trees depths w = (inr tt, w') ->
  exists w1,
    run_cells (list_prod trees depths) (snd (init_lists w)) = (inr tt, w1) /\
    make_results_df w1 = (inr tt, w').
Proof.
  intros Hrun.
  destruct (SweepFacts.cell_57_stages x_train_scaled y_train x_test_scaled y_test
              trees depths w) as (w0 & Hinit & Hst).
  rewrite Hst in Hrun. inversion Hinit as [Hw0]. rewrite <- Hw0 in Hrun.
  change (set_tuned_rf_R2 [] (set_tuned_rf_MSE [] (set_tree_depth []
            (set_tree_count [] w)))) with (snd (init_lists w)) in Hrun.
  destruct (Sweep.run_cells _ _ _ _ _ (snd (init_lists w))) as [[e | []] w1] eqn:H1;
    [discriminate |].
  exists w1. split; [reflexivity | exact Hrun].
Qed.

(** The last stage binds the table and touches nothing else. *)
Lemma make_results_df_returns w1 w' :
  make_results_df w1 = (inr tt, w') ->
  exists df,
    pd_DataFrame (tree_count w1) (tree_depth w1) (tuned_rf_MSE w1) (tuned_rf_R2 w1)
      = inr df /\
    w' = set_results_df df w1.
Proof.
  unfold make_results_df, Py.bind, Py.get, Py.call, Py.modify.
  destruct (pd_DataFrame _ _ _ _) as [e | df]; [discriminate |].
  intros H; inversion H. exists df. split; reflexivity.
Qed.

Lemma aligned_step c w w' :
  aligned w -> body_at c w = (inr tt, w') -> aligned w'.
Proof.
  intros (H12 & H23 & H34 & Hrows) Hrun. destruct c as [tree depth].
  unfold Sweep.body_at in Hrun; simpl in Hrun.
  apply (SweepFacts.body_returns x_train_scaled y_train x_test_scaled y_test)
    in Hrun as (m' & g' & y & mse & r2 & Hfit & Hpred & Hmse & Hr2 & ->).
  unfold SweepSpec.aligned, rows; simpl. rewrite !length_app; simpl.
  repeat split; try lia.
  rewrite !combine_snoc, map_app
    by (rewrite ?length_combine; lia).
  apply Forall_app. split; [exact Hrows |].
  constructor; [| constructor].
  exists (np_random w), g', m', y. simpl. repeat split; assumption.
Qed.

(** X6.  Every row of the table that the sweep binds carries the scores
    of its own grid cell: a forest built with the row's number of trees
    and depth, fit on the training set, scored on its prediction for
    the test set. *)
Theorem rows_carry_their_own_scores trees depths w w' df :
  cell_57 trees depths w = (inr tt, w') ->
  results_df w' = Some df ->
  Forall row_of_its_cell df.
Proof.
  intros Hrun Hdf.
  destruct (cell_57_returns_stages _ _ _ _ Hrun) as (w1 & Hcells & Hmk).
  assert (Hal : aligned w1).
  { unfold Sweep.run_cells in Hcells.
    apply (PyFacts.for_invariant (fun _ v => aligned v) body_at
             (fun done c v v' Hv Hc => aligned_step c v v' Hv Hc)
             (list_prod trees depths) [] (snd (init_lists w)) w1); [| exact Hcells].
    unfold SweepSpec.aligned, rows; simpl. repeat split; constructor. }
  destruct (make_results_df_returns _ _ Hmk) as (df' & Hpd & ->).
  simpl in Hdf. inversion Hdf; subst df'; clear Hdf.
  destruct Hal as (H12 & H23 & H34 & Hrows).
  unfold pd_DataFrame in Hpd. rewrite H12, H23, H34, !Nat.eqb_refl in Hpd.
  simpl in Hpd. inversion Hpd. exact Hrows.
Qed.

Lemma trace_step tr0 done c w w' :
  trace w = tr0 ++ flat_map cell_events done ->
  body_at c w = (inr tt, w') ->
  trace w' = tr0 ++ flat_map cell_events (done ++ [c]).
Proof.
  intros Htr Hrun. destruct c as [tree depth].
  unfold Sweep.body_at in Hrun; simpl in Hrun.
  apply (SweepFacts.body_returns x_train_scaled y_train x_test_scaled y_test)
    in Hrun as (m' & g' & y & mse & r2 & _ & _ & _ & _ & ->).
  simpl. rewrite Htr, flat_map_app. simpl. rewrite <- !app_assoc. reflexivity.
Qed.

(** X7.  A sweep that ends normally has called [fit] once and then
    [predict] once for every grid cell, in row-major order, and has made
    no other call to the trainer: one model per cell. *)
Theorem one_fit_and_predict_per_cell trees depths w w' :
  cell_57 trees depths w = (inr tt, w') ->
  trace w' = trace w ++ flat_map cell_events (list_prod trees depths) /\
  models_fit (trace w') = (models_fit (trace w) + length trees * length depths)%nat.
Proof.
  intros Hrun.
  destruct (cell_57_returns_stages _ _ _ _ Hrun) as (w1 & Hcells & Hmk).
  assert (Htr : trace w1 = trace w ++ flat_map cell_events (list_prod trees depths)).
  { unfold Sweep.run_cells in Hcells.
    apply (PyFacts.for_invariant
             (fun done v => trace v = trace w ++ flat_map cell_events done) body_at
             (fun done c v v' Hv Hc => trace_step (trace w) done c v v' Hv Hc)
             (list_prod trees depths) [] (snd (init_lists w)) w1); [| exact Hcells].
    simpl. rewrite app_nil_r. reflexivity. }
  destruct (make_results_df_returns _ _ Hmk) as (df & _ & ->). simpl.
  split; [exact Htr |].
  rewrite Htr, SweepFacts.models_fit_app, models_fit_cell_events, length_prod.
  reflexivity.
Qed.

(** X8.  With no tree counts or no depths the sweep calls nothing and
    binds an empty table: it returns normally, the trace, the generator
    and [tuned_rf_model] are as they were. *)
Theorem empty_grid_empty_table trees depths w :
  trees = [] \/ depths = [] ->
  exists w',
    cell_57 trees depths w = (inr tt, w') /\
    results_df w' = Some [] /\
    trace w' = trace w /\
    np_random w' = np_random w /\
    tuned_rf_model w' = tuned_rf_model w.
Proof.
  intros Hempty.
  assert (Hgrid : list_prod trees depths = []).
  { destruct Hempty as [-> | ->]; [reflexivity | apply list_prod_nil_r]. }
  destruct (SweepFacts.cell_57_stages x_train_scaled y_train x_test_scaled y_test
              trees depths w) as (w0 & Hinit & ->).
  inversion Hinit as [Hw0]. rewrite Hgrid. simpl.
  eexists. split; [reflexivity |]. simpl. repeat split; reflexivity.
Qed.

(** An iteration in which a scorer raises: what the exception leaves. *)
Lemma body_mse_raises tree depth w m' g' y e :
  fit (RandomForestRegressor tree depth) x_train_scaled y_train (np_random w)
    = (inr m', g') ->
  predict m' x_test_scaled = inr y ->
  mean_squared_error y_test y = inl e ->
  exists w',
    body tree depth w = (inl e, w') /\
    tree_count w' = tree_count w ++ [tree] /\
    tree_depth w' = tree_depth w ++ [depth] /\
    tuned_rf_MSE w' = tuned_rf_MSE w /\ tuned_rf_R2 w' = tuned_rf_R2 w /\
    results_df w' = results_df w.
Proof.
  intros Hfit Hpred Hmse. run_body. rewrite Hfit; simpl. rewrite Hpred; simpl.
  rewrite Hmse; simpl. eexists; split; [reflexivity |]. simpl.
  repeat split; reflexivity.
Qed.

Lemma body_r2_raises tree depth w m' g' y mse e :
  fit (RandomForestRegressor tree depth) x_train_scaled y_train (np_random w)
    = (inr m', g') ->
  predict m' x_test_scaled = inr y ->
  mean_squared_error y_test y = inr mse ->
  r2_score y_test y = inl e ->
  exists w',
    body tree depth w = (inl e, w') /\
    tree_count w' = tree_count w ++ [tree] /\
    tree_depth w' = tree_depth w ++ [depth] /\
    tuned_rf_MSE w' = tuned_rf_MSE w ++ [mse] /\ tuned_rf_R2 w' = tuned_rf_R2 w /\
    results_df w' = results_df w.
Proof.
  intros Hfit Hpred Hmse Hr2. run_body. rewrite Hfit; simpl. rewrite Hpred; simpl.
  rewrite Hmse; simpl. rewrite Hr2; simpl. eexists; split; [reflexivity |]. simpl.
  repeat split; reflexivity.
Qed.

(** X9.  When a scorer raises in a grid cell, the sweep ends there and
    binds no table, and the exception finds the four lists out of step:
    the hyperparameters of the cell are already appended, its scores
    are not (after [mean_squared_error]), or only its MSE is (after
    [r2_score]). *)
Theorem scorer_failure_leaves_lists_out_of_step
        trees depths pre tree depth post w w1 m' g' y e :
  list_prod trees depths = pre ++ (tree, depth) :: post ->
  (init_lists ;; run_cells pre)%py w = (inr tt, w1) ->
  fit (RandomForestRegressor tree depth) x_train_scaled y_train (np_random w1)
    = (inr m', g') ->
  predict m' x_test_scaled = inr y ->
  (mean_squared_error y_test y = inl e ->
   exists w',
     cell_57 trees depths w = (inl e, w') /\
     results_df w' = results_df w /\
     length (tree_count w') = Datatypes.S (length pre) /\
     length (tree_depth w') = Datatypes.S (length pre) /\
     length (tuned_rf_MSE w') = length pre /\
     length (tuned_rf_R2 w') = length pre) /\
  (forall mse,
      mean_squared_error y_test y = inr mse ->
      r2_score y_test y = inl e ->
      exists w',
        cell_57 trees depths w = (inl e, w') /\
        results_df w' = results_df w /\
        length (tree_count w') = Datatypes.S (length pre) /\
        length (tree_depth w') = Datatypes.S (length pre) /\
        length (tuned_rf_MSE w') = Datatypes.S (length pre) /\
        length (tuned_rf_R2 w') = length pre).
Proof.
  intros Hgrid Hpre Hfit Hpred.
  destruct (SweepFacts.prefix_evaluated x_train_scaled y_train x_test_scaled y_test
              _ _ _ Hpre) as (w0 & Hinit & Hrun & Hev).
  destruct Hev as (Hc & Hd & Hs & Hl & _ & Hdf).
  pose proof (Forall2_length Hs) as Hl2.
  split.
  - intros Hmse.
    destruct (body_mse_raises tree depth w1 m' g' y e Hfit Hpred Hmse)
      as (w' & Hbody & Ec & Ed & Em & Er & Edf).
    exists w'.
    rewrite (SweepFacts.cell_57_aborts x_train_scaled y_train x_test_scaled y_test
               trees depths pre (tree, depth) post w w0 w1 w' e
               Hgrid Hinit Hrun Hbody).
    rewrite Ec, Ed, Em, Er, Edf, Hdf, Hc, Hd, !length_app, !length_map, <- Hl2, Hl.
    simpl. repeat split; lia.
  - intros mse Hmse Hr2.
    destruct (body_r2_raises tree depth w1 m' g' y mse e Hfit Hpred Hmse Hr2)
      as (w' & Hbody & Ec & Ed & Em & Er & Edf).
    exists w'.
    rewrite (SweepFacts.cell_57_aborts x_train_scaled y_train x_test_scaled y_test
               trees depths pre (tree, depth) post w w0 w1 w' e
               Hgrid Hinit Hrun Hbody).
    rewrite Ec, Ed, Em, Er, Edf, Hdf, Hc, Hd, !length_app, !length_map, <- Hl2, Hl.
    simpl. repeat split; lia.
Qed.

(** X10.  After a sweep that ends normally, [tuned_rf_model] and
    [y_pred_tuned_rf] are the fitted forest and the prediction of the
    last grid cell -- the last tree count with the last depth, not the
    best-scoring cell -- and the generator is in the state that this
    last [fit] left. *)
Theorem last_cell_model_is_kept trees depths pre tree depth w w' :
  list_prod trees depths = pre ++ [(tree, depth)] ->
  cell_57 trees depths w = (inr tt, w') ->
  exists g g' m' y,
    fit (RandomForestRegressor tree depth) x_train_scaled y_train g = (inr m', g') /\
    predict m' x_test_scaled = inr y /\
    tuned_rf_model w' = Some m' /\
    y_pred_tuned_rf w' = Some y /\
    np_random w' = g'.
Proof.
  intros Hgrid Hrun.
  destruct (cell_57_returns_stages _ _ _ _ Hrun) as (w1 & Hcells & Hmk).
  rewrite Hgrid in Hcells. unfold Sweep.run_cells in Hcells.
  rewrite PyFacts.for_app in Hcells. unfold Py.bind in Hcells.
  destruct (Py.for_ pre _ _) as [[e | []] v] eqn:Hpre; [discriminate |].
  simpl in Hcells. unfold Py.bind, Py.ret in Hcells.
  destruct (Sweep.body_at _ _ _ _ (tree, depth) v) as [[e | []] v'] eqn:Hlast;
    [discriminate |].
  inversion Hcells; subst v'; clear Hcells.
  unfold Sweep.body_at in Hlast; simpl in Hlast.
  apply (SweepFacts.body_returns x_train_scaled y_train x_test_scaled y_test)
    in Hlast as (m' & g' & y & mse & r2 & Hfit & Hpred & _ & _ & ->).
  destruct (make_results_df_returns _ _ Hmk) as (df & _ & ->).
  exists (np_random v), g', m', y. simpl. repeat split; assumption.
Qed.

End Cell57.
End SweepTableFacts.



(** ** The table and the trace on the stand-in forest *)

Module SweepTableExamples.
Import Sweep SweepSpec Toy ToyScorers Metrics.
Local Open Scope Z_scope.

Abbreviation toy_cell_57 :=
  (cell_57 (T := ToyForest) (S := RealScorer) x_train y_train x_test y_test).

Ltac run_toy := cbv -[mse r2 IZR]; reflexivity.

Lemma rows_carry_their_own_scores_witness :
  exists w' df,
    toy_cell_57 [50; 100] [1; 3] (fresh 7) = (inr tt, w') /\
    results_df w' = Some df /\
    length df = 4%nat /\
    Forall (row_of_its_cell (T := ToyForest) (S := RealScorer)
                            x_train y_train x_test y_test) df.
Proof.
  do 2 eexists. split; [run_toy |]. split; [reflexivity |]. split; [reflexivity |].
  match goal with
  | |- Forall _ ?DF =>
      apply (SweepTableFacts.rows_carry_their_own_scores
               (T := ToyForest) (S := RealScorer)
               x_train y_train x_test y_test [50; 100] [1; 3] (fresh 7)
               (snd (toy_cell_57 [50; 100] [1; 3] (fresh 7))) DF);
        run_toy
  end.
Defined.

Lemma one_fit_and_predict_per_cell_witness :
  exists w',
    toy_cell_57 [50; 100] [1; 3] (fresh 7) = (inr tt, w') /\
    trace w' = [EvFit 50 1 true; EvPredict 50 1 true;
                EvFit 50 3 true; EvPredict 50 3 true;
                EvFit 100 1 true; EvPredict 100 1 true;
                EvFit 100 3 true; EvPredict 100 3 true] /\
    models_fit (trace w') = 4%nat.
Proof.
  assert (Hrun : toy_cell_57 [50; 100] [1; 3] (fresh 7)
                 = (inr tt, snd (toy_cell_57 [50; 100] [1; 3] (fresh 7)))) by run_toy.
  exists (snd (toy_cell_57 [50; 100] [1; 3] (fresh 7))).
  split; [exact Hrun |].
  exact (SweepTableFacts.one_fit_and_predict_per_cell
           (T := ToyForest) (S := RealScorer)
           x_train y_train x_test y_test [50; 100] [1; 3] (fresh 7) _ Hrun).
Defined.

Lemma empty_grid_empty_table_witness :
  exists w',
    toy_cell_57 [50; 100] [] (fresh 7) = (inr tt, w') /\
    results_df w' = Some [] /\
    trace w' = trace (fresh 7) /\
    np_random w' = np_random (fresh 7) /\
    tuned_rf_model w' = tuned_rf_model (fresh 7).
Proof.
  exact (SweepTableFacts.empty_grid_empty_table (T := ToyForest) (S := RealScorer)
           x_train y_train x_test y_test [50; 100] [] (fresh 7) (or_intror eq_refl)).
Defined.

Lemma scorer_failure_leaves_lists_out_of_step_witness :
  (exists w',
      cell_57 (T := ToyForest) (S := RealScorer) x_train y_train x_test y_test_3
              [50; 100] [1] (fresh 7) = (inl ValueError, w') /\
      results_df w' = results_df (fresh 7) /\
      length (tree_count w') = 1%nat /\ length (tree_depth w') = 1%nat /\
      length (tuned_rf_MSE w') = 0%nat /\ length (tuned_rf_R2 w') = 0%nat) /\
  (exists w',
      cell_57 (T := ToyForest) (S := R2Raises) x_train y_train x_test y_test
              [50; 100] [1] (fresh 7) = (inl ValueError, w') /\
      results_df w' = results_df (fresh 7) /\
      length (tree_count w') = 1%nat /\ length (tree_depth w') = 1%nat /\
      length (tuned_rf_MSE w') = 1%nat /\ length (tuned_rf_R2 w') = 0%nat).
Proof.
  split.
  - apply (proj1 (SweepTableFacts.scorer_failure_leaves_lists_out_of_step
                    (T := ToyForest) (S := RealScorer)
                    x_train y_train x_test y_test_3 [50; 100] [1]
                    [] 50 1 [(100, 1)] (fresh 7) lists_emptied
                    (mkEstimator 50 1 (Some 3%nat) 8) 57 [8; 8]%R ValueError
                    eq_refl eq_refl eq_refl eq_refl)).
    reflexivity.
  - apply (proj2 (SweepTableFacts.scorer_failure_leaves_lists_out_of_step
                    (T := ToyForest) (S := R2Raises)
                    x_train y_train x_test y_test [50; 100] [1]
                    [] 50 1 [(100, 1)] (fresh 7) lists_emptied
                    (mkEstimator 50 1 (Some 3%nat) 8) 57 [8; 8]%R ValueError
                    eq_refl eq_refl eq_refl eq_refl)
             (mse y_test [8; 8]%R)); reflexivity.
Defined.

Lemma last_cell_model_is_kept_witness :
  exists g g' m' y,
    fit (RandomForestRegressor 100 3) x_train y_train g = (inr m', g') /\
    predict m' x_test = inr y /\
    tuned_rf_model (snd (toy_cell_57 [50; 100] [1; 3] (fresh 7))) = Some m' /\
    y_pred_tuned_rf (snd (toy_cell_57 [50; 100] [1; 3] (fresh 7))) = Some y /\
    np_random (snd (toy_cell_57 [50; 100] [1; 3] (fresh 7))) = g'.
Proof.
  assert (Hrun : toy_cell_57 [50; 100] [1; 3] (fresh 7)
                 = (inr tt, snd (toy_cell_57 [50; 100] [1; 3] (fresh 7)))) by run_toy.
  exact (SweepTableFacts.last_cell_model_is_kept (T := ToyForest) (S := RealScorer)
           x_train y_train x_test y_test [50; 100] [1; 3]
           [(50, 1); (50, 3); (100, 1)] 100 3 (fresh 7) _ eq_refl Hrun).
Defined.
End SweepTableExamples.



(** ** Cell 43: shapes, the mismatch, the printed statistics *)

Module ScalingShapeFacts.
Import Stats Scaling Numpy StatsFacts.
Local Open Scope R_scope.

(** Cell 43 in one step: the scaler and the scaled training matrix are
    bound in any case, the scaled test matrix only when [transform]
    returns. *)
Lemma cell_43_outcome (x_train x_test : Matrix) (w : Globals) :
  cell_43 x_train x_test w
  = match transform (fit new_scaler x_train) x_test with
    | inl e => (inl e, mkGlobals (Some (fit new_scaler x_train))
                                 (Some (scaled x_train)) (x_test_scaled w))
    | inr Xt => (inr tt, mkGlobals (Some (fit new_scaler x_train))
                                   (Some (scaled x_train)) (Some Xt))
    end.
Proof.
  assert (Htrain : transform (fit new_scaler x_train) x_train = inr (scaled x_train)).
  { unfold transform, fit; simpl. rewrite length_map, Nat.eqb_refl.
    rewrite ScalingFacts.scale_with_own_parameters. reflexivity. }
  unfold cell_43, fit_transform, Py.bind, Py.modify, Py.call, Py.get.
  rewrite Htrain. cbn [scaler fst snd].
  destruct (transform (fit new_scaler x_train) x_test) as [e | Xt]; reflexivity.
Qed.

Lemma transform_fitted (x_train x_test : Matrix) :
  transform (fit new_scaler x_train) x_test
  = if (length x_train =? length x_test)%nat
    then inr (map (fun pc => scale_column (column_parameters (fst pc)) (snd pc))
                  (combine x_train x_test))
    else inl ValueError.
Proof.
  unfold transform, fit; simpl. rewrite length_map.
  destruct (length x_train =? length x_test)%nat; [| reflexivity].
  rewrite ScalingFacts.scale_with_train_parameters. reflexivity.
Qed.

(** X11.  When [scaler.transform(x_test)] raises in cell 43, that
    exception is the outcome of the cell, and it finds the namespace
    half-bound: the scaler is fitted on the training matrix and
    [x_train_scaled] is bound, while [x_test_scaled] keeps whatever
    binding it had. *)
Theorem cell_43_transform_raises (x_train x_test : Matrix) (w : Globals) (e : exn) :
  has_rows_and_columns x_train ->
  transform (fit new_scaler x_train) x_test = inl e ->
  cell_43 x_train x_test w
  = (inl e,
     mkGlobals (Some (mkScaler (Some (map column_parameters x_train)) [x_train]))
               (Some (scaled x_train)) (x_test_scaled w)).
Proof.
  intros _ Hraise. rewrite cell_43_outcome, Hraise. reflexivity.
Qed.

Lemma cell_43_transform_raises_witness :
  cell_43 [[0; 2]; [5; 5]] [[1]] unbound
  = (inl ValueError,
     mkGlobals (Some (mkScaler (Some (map column_parameters [[0; 2]; [5; 5]]))
                               [[[0; 2]; [5; 5]]]))
               (Some (scaled [[0; 2]; [5; 5]])) (x_test_scaled unbound)).
Proof.
  apply (cell_43_transform_raises [[0; 2]; [5; 5]] [[1]] unbound ValueError).
  - split; [discriminate |]. intros col [<- | [<- | []]]; discriminate.
  - reflexivity.
Defined.

Lemma scaled_pairs_shape (X X' : Matrix) :
  length X = length X' ->
  map (@length R)
      (map (fun pc => scale_column (column_parameters (fst pc)) (snd pc))
           (combine X X'))
  = map (@length R) X'.
Proof.
  revert X'; induction X as [| col X IH]; intros [| col' X'] Hlen; simpl in *;
    try discriminate; [reflexivity |].
  unfold scale_column at 1. rewrite length_map, IH by lia. reflexivity.
Qed.

(** X12.  On matrices with at least one row and one column, when cell
    43 returns the two matrices have the same number of feature
    columns and scaling has kept the shape: both scaled matrices have
    the columns, and every column the number of rows, of the matrix
    they come from. *)
Theorem cell_43_keeps_shapes (x_train x_test : Matrix) (w w' : Globals) :
  has_rows_and_columns x_train ->
  has_rows_and_columns x_test ->
  cell_43 x_train x_test w = (inr tt, w') ->
  length x_test = length x_train /\
  exists Xs Xt,
    x_train_scaled w' = Some Xs /\ x_test_scaled w' = Some Xt /\
    map (@length R) Xs = map (@length R) x_train /\
    map (@length R) Xt = map (@length R) x_test.
Proof.
  intros _ _. rewrite cell_43_outcome, transform_fitted.
  destruct (Nat.eqb_spec (length x_train) (length x_test)) as [E | Hneq];
    [| discriminate].
  intros H; inversion H; subst w'; simpl. split; [symmetry; exact E |].
  do 2 eexists. split; [reflexivity | split; [reflexivity | split]].
  - unfold scaled. rewrite map_map. apply map_ext. intros col.
    unfold scale_column. apply length_map.
  - apply scaled_pairs_shape. exact E.
Qed.

Lemma cell_43_keeps_shapes_witness :
  exists w' Xs Xt,
    cell_43 [[0; 2]; [5; 5]] [[1]; [7]] unbound = (inr tt, w') /\
    x_train_scaled w' = Some Xs /\ x_test_scaled w' = Some Xt /\
    map (@length R) Xs = [2; 2]%nat /\ map (@length R) Xt = [1; 1]%nat.
Proof.
  assert (Htrain : has_rows_and_columns [[0; 2]; [5; 5]]).
  { split; [discriminate |]. intros col [<- | [<- | []]]; discriminate. }
  assert (Htest : has_rows_and_columns [[1]; [7]]).
  { split; [discriminate |]. intros col [<- | [<- | []]]; discriminate. }
  assert (Hrun : cell_43 [[0; 2]; [5; 5]] [[1]; [7]] unbound
                 = (inr tt, snd (cell_43 [[0; 2]; [5; 5]] [[1]; [7]] unbound))).
  { rewrite cell_43_outcome, transform_fitted. reflexivity. }
  destruct (cell_43_keeps_shapes _ _ _ _ Htrain Htest Hrun)
    as (_ & Xs & Xt & H1 & H2 & H3 & H4).
  exists (snd (cell_43 [[0; 2]; [5; 5]] [[1]; [7]] unbound)), Xs, Xt.
  repeat split; assumption.
Defined.








End ScalingShapeFacts.



(** ** Cells 45 and 49 *)

Module BaselineFacts.
Import Baselines.

Section Cells.
Context {Matrix Vector Estimator Rng Score : Type}.
Context {T : Trainer Matrix Vector Estimator Rng}.
Context {S : Scorer Vector Score}.
Context {D : Defaults Estimator}.
Variables (x_train_scaled : Matrix) (y_train : Vector).
Variables (x_test_scaled : Matrix) (y_test : Vector).

Abbreviation Globals := (@Globals Vector Estimator Rng Score).
Abbreviation cell_45 := (cell_45 x_train_scaled y_train x_test_scaled y_test).
Abbreviation cell_49 := (cell_49 x_train_scaled y_train x_test_scaled y_test).
Abbreviation estimator_ok :=
  (estimator_ok x_train_scaled y_train x_test_scaled y_test).

Implicit Types (w : Globals).

(** Cell 45 binds [results] to a table of one row, whatever it was. *)
Lemma cell_45_one_row w :
  estimator_ok LinearRegression ->
  exists w' row,
    cell_45 w = (inr tt, w') /\
    results w' = Some [row] /\ index row = "Multi-Linear-Regression"%string.
Proof.
  intros Hok.
  destruct (Hok (np_random w)) as (m' & g' & y & mse & r2 & Hfit & Hpred & Hmse & Hr2).
  unfold Baselines.cell_45; simpl. rewrite Hfit; simpl. rewrite Hpred; simpl.
  rewrite Hmse, Hr2. do 2 eexists. split; [reflexivity |]. split; reflexivity.
Qed.

(** Cell 49 puts one row after the rows that [results] holds. *)
Lemma cell_49_appends w t :
  estimator_ok RandomForestRegressor_default ->
  results w = Some t ->
  exists w' row,
    cell_49 w = (inr tt, w') /\
    results w' = Some (t ++ [row]) /\ index row = "Default_RF_Regression"%string.
Proof.
  intros Hok Hres.
  destruct (Hok (np_random w)) as (m' & g' & y & mse & r2 & Hfit & Hpred & Hmse & Hr2).
  unfold Baselines.cell_49; simpl. rewrite Hfit; simpl. rewrite Hpred; simpl.
  rewrite Hmse, Hr2. simpl. rewrite Hres. do 2 eexists.
  split; [reflexivity |]. split; reflexivity.
Qed.

Lemma run_cell_49_times k w t :
  estimator_ok RandomForestRegressor_default ->
  results w = Some t ->
  exists w' t',
    run_times k cell_49 w = (inr tt, w') /\
    results w' = Some t' /\
    map (@index Score) t'
    = map (@index Score) t ++ repeat "Default_RF_Regression"%string k.
Proof.
  intros Hok. revert w t; induction k as [| k IH]; intros w t Hres.
  - exists w, t. simpl. rewrite app_nil_r. repeat split. exact Hres.
  - destruct (cell_49_appends w t Hok Hres) as (w1 & row & Hrun & Hres1 & Hrow).
    destruct (IH w1 (t ++ [row]) Hres1) as (w' & t' & Hrest & Hres' & Hidx).
    exists w', t'. simpl run_times. unfold then_ at 1. rewrite Hrun.
    split; [exact Hrest | split; [exact Hres' |]].
    rewrite Hidx, map_app. simpl. rewrite Hrow, <- app_assoc. reflexivity.
Qed.

(** X14.  When the library calls return, cell 45 followed by [k] runs of
    cell 49 leaves a table of [k + 1] rows: the linear model's first,
    then one more forest row for every run of cell 49.  Cell 45 starts
    the table afresh; cell 49 adds to it each time it is run. *)
Theorem results_grow_with_every_run_of_cell_49 (k : nat) w :
  estimator_ok LinearRegression ->
  estimator_ok RandomForestRegressor_default ->
  exists w' t,
    then_ cell_45 (run_times k cell_49) w = (inr tt, w') /\
    results w' = Some t /\
    map (@index Score) t
    = "Multi-Linear-Regression"%string :: repeat "Default_RF_Regression"%string k.
Proof.
  intros Hlin Hrf.
  destruct (cell_45_one_row w Hlin) as (w1 & row & Hrun & Hres & Hrow).
  destruct (run_cell_49_times k w1 [row] Hrf Hres) as (w' & t & Hrest & Hres' & Hidx).
  exists w', t. unfold then_. rewrite Hrun.
  split; [exact Hrest | split; [exact Hres' |]].
  rewrite Hidx. simpl. rewrite Hrow. reflexivity.
Qed.

(** X15.  Run in a kernel where [results] is not bound (cell 45 has not
    run), cell 49 fits and scores the forest, binds
    [default_rf_model_results], and only then ends with [NameError] at
    the [pd.concat]: [results] stays unbound. *)
Theorem cell_49_before_cell_45 w :
  estimator_ok RandomForestRegressor_default ->
  results w = None ->
  exists w' m' row,
    cell_49 w = (inl (NameError "results"), w') /\
    default_rf_model w' = Some m' /\
    default_rf_model_results w' = Some [row] /\
    index row = "Default_RF_Regression"%string /\
    results w' = None.
Proof.
  intros Hok Hres.
  destruct (Hok (np_random w)) as (m' & g' & y & mse & r2 & Hfit & Hpred & Hmse & Hr2).
  unfold Baselines.cell_49; simpl. rewrite Hfit; simpl. rewrite Hpred; simpl.
  rewrite Hmse, Hr2. simpl. rewrite Hres. do 3 eexists.
  split; [reflexivity |]. simpl. repeat split; try reflexivity. exact Hres.
Qed.
End Cells.
End BaselineFacts.

Module BaselineExamples.
Import Baselines ToyBaselines Toy Metrics.
Local Open Scope Z_scope.

Lemma toy_estimator_ok (tree depth : Z) :
  1 <= tree -> 1 <= depth ->
  estimator_ok (T := ToyForest) (S := RealScorer) x_train y_train x_test y_test
               (mkEstimator tree depth None 0).
Proof.
  intros Ht Hd g. simpl. unfold toy_fit; simpl.
  destruct (Z.ltb_spec tree 1); [lia |]. destruct (Z.ltb_spec depth 1); [lia |].
  simpl. do 5 eexists. repeat split; reflexivity.
Qed.

Lemma results_grow_with_every_run_of_cell_49_witness :
  exists w' t,
    then_ (cell_45 (T := ToyForest) (S := RealScorer) (D := ToyDefaults)
                   x_train y_train x_test y_test)
          (run_times 2 (cell_49 (T := ToyForest) (S := RealScorer) (D := ToyDefaults)
                                x_train y_train x_test y_test))
          (ToyBaselines.fresh 7) = (inr tt, w') /\
    results w' = Some t /\
    map (@index R) t
    = ["Multi-Linear-Regression"; "Default_RF_Regression"; "Default_RF_Regression"]%string.
Proof.
  apply (BaselineFacts.results_grow_with_every_run_of_cell_49
           (T := ToyForest) (S := RealScorer) (D := ToyDefaults)
           x_train y_train x_test y_test 2 (ToyBaselines.fresh 7)).
  - apply (toy_estimator_ok 1 1); lia.
  - apply (toy_estimator_ok 100 1); lia.
Defined.

Lemma cell_49_before_cell_45_witness :
  exists w' m' row,
    cell_49 (T := ToyForest) (S := RealScorer) (D := ToyDefaults)
            x_train y_train x_test y_test (ToyBaselines.fresh 7)
    = (inl (NameError "results"), w') /\
    default_rf_model w' = Some m' /\
    default_rf_model_results w' = Some [row] /\
    index row = "Default_RF_Regression"%string /\
    results w' = None.
Proof.
  apply (BaselineFacts.cell_49_before_cell_45
           (T := ToyForest) (S := RealScorer) (D := ToyDefaults)
           x_train y_train x_test y_test (ToyBaselines.fresh 7)).
  - apply (toy_estimator_ok 100 1); lia.
  - reflexivity.
Defined.
End BaselineExamples.

(** ** Cell 40 *)

Module FrameFacts.
Import Frame.

Section Columns.
Variable Col : Type.
Implicit Types (df : DataFrame Col) (l : string).

Lemma among_In (labels : list string) l :
  among labels l = true <-> In l labels.
Proof.
  unfold among. rewrite existsb_exists. split.
  - intros (l' & Hin & Heq). apply String.eqb_eq in Heq. subst. exact Hin.
  - intros Hin. exists l. split; [exact Hin | apply String.eqb_refl].
Qed.

Lemma getitem_present l df :
  In l (columns df) -> exists c, getitem l df = inr c.
Proof.
  intros Hin. unfold getitem.
  destruct (find _ df) as [c |] eqn:Hfind; [exists (snd c); reflexivity |].
  exfalso. unfold columns in Hin. apply in_map_iff in Hin as (c & Hc & Hin).
  pose proof (find_none _ _ Hfind c Hin) as Hno. simpl in Hno.
  rewrite <- Hc, String.eqb_refl in Hno. discriminate.
Qed.

Lemma columns_filter (p : string -> bool) df :
  columns (filter (fun c => p (fst c)) df) = filter p (columns df).
Proof.
  unfold columns. induction df as [| c df IH]; simpl; [reflexivity |].
  destruct (p (fst c)); simpl; rewrite IH; reflexivity.
Qed.

(** X16.  The feature matrix of cell 40 holds every column of [df]
    other than the target, the identifiers and the molecule objects,
    in the order of [df], and [y] is the [logS] column; once [x] is
    computed, [df['logS']] cannot fail.  When one of the four labels is
    not a column of [df] (the [mol] column before cell 21 has run), the
    cell ends with [KeyError] naming the labels not found. *)
Theorem cell_40_features df :
  ((forall l, In l not_features -> In l (columns df)) ->
   exists x y,
     cell_40_xy df = inr (x, y) /\
     getitem "logS" df = inr y /\
     x = filter (fun c => negb (among not_features (fst c))) df /\
     columns x = filter (fun l => negb (among not_features l)) (columns df) /\
     (forall l, In l (columns x) <-> In l (columns df) /\ ~ In l not_features)) /\
  ((exists l, In l not_features /\ ~ In l (columns df)) ->
   exists missing,
     cell_40_xy df = inl (KeyError missing) /\
     missing <> [] /\
     (forall l, In l missing <-> In l not_features /\ ~ In l (columns df))).
Proof.
  assert (Hmiss : forall l,
             In l (filter (fun l => negb (among (columns df) l)) not_features)
             <-> In l not_features /\ ~ In l (columns df)).
  { intros l. rewrite filter_In, negb_true_iff, <- not_true_iff_false, among_In.
    reflexivity. }
  split.
  - intros Hall. unfold cell_40_xy, drop.
    destruct (filter (fun l => negb (among (columns df) l)) not_features)
      as [| l0 rest] eqn:Hf.
    + destruct (getitem_present "logS" df) as [y Hy].
      { apply Hall. left; reflexivity. }
      rewrite Hy. do 2 eexists.
      split; [reflexivity | split; [reflexivity | split; [reflexivity | split]]].
      * apply (columns_filter (fun l => negb (among not_features l))).
      * intros l. rewrite (columns_filter (fun l => negb (among not_features l))).
        rewrite filter_In, negb_true_iff, <- not_true_iff_false, among_In.
        reflexivity.
    + exfalso. destruct (proj1 (Hmiss l0)) as [Hin Hno].
      * left; reflexivity.
      * apply Hno, Hall, Hin.
  - intros (l & Hin & Hno). unfold cell_40_xy, drop.
    destruct (filter (fun l => negb (among (columns df) l)) not_features)
      as [| l0 rest] eqn:Hf.
    + exfalso. apply (proj2 (Hmiss l)). split; assumption.
    + exists (l0 :: rest). split; [reflexivity | split; [discriminate |]].
      exact Hmiss.
Qed.
End Columns.

Lemma cell_40_features_witness :
  (exists x y,
      cell_40_xy ToyBaselines.df_full = inr (x, y) /\
      getitem "logS" ToyBaselines.df_full = inr y /\
      columns x = ["mol_weight"; "rot_bonds"; "clogP"; "aromatic_ratio"]%string) /\
  (exists missing,
      cell_40_xy ToyBaselines.df_raw = inl (KeyError missing) /\
      missing <> [] /\
      (forall l, In l missing <->
                 In l not_features /\ ~ In l (columns ToyBaselines.df_raw))).
Proof.
  split.
  - destruct (proj1 (cell_40_features nat ToyBaselines.df_full))
      as (x & y & Hxy & Hy & _ & Hcols & _).
    + intros l Hin. simpl in Hin. simpl.
      repeat (destruct Hin as [<- | Hin]; [tauto |]). contradiction.
    + exists x, y. split; [exact Hxy | split; [exact Hy |]].
      rewrite Hcols. reflexivity.
  - apply (proj2 (cell_40_features nat ToyBaselines.df_raw)).
    exists "mol"%string. split; [simpl; tauto |].
    simpl. intros [H | [H | [H | []]]]; discriminate.
Defined.
End FrameFacts.
